(** * wall-select: the wallpaper database, its codec, its sessions and the
      startpage selection

    A shallow embedding of [wallpaperdatabase.py] and [lock.py], of
    [wsconfig.read] and of the part of [wall-select.py] that creates a
    database.

    - [Py]       exceptions as values, an error monad, the string and
                 dictionary operations the program uses;
    - [Datetime] the part of Python's [datetime] the codec touches;
    - [Codec]    [_Encoder.default], [_Decoder.decode] and the walk that
                 [json.dump] / [json.load] perform around them;
    - [OS]       the database file, the lock held on it, the system calls
                 that may fail, and a log of what was done;
    - [FileLock] [lock.py];
    - [Session]  [WallpaperDatabase._open], [__enter__], [save], [close],
                 [__exit__] over that state;
    - [Fs]       paths and the directory tree under the base directory;
    - [Catalog]  [_list_wallpapers], [create], [refresh], [set_startpage];
    - [Spec]     the vocabulary of the statements and the examples;
    - [LockScope] the lock as a context manager;
    - [Views]    [database_info] and [startpage_info];
    - [Config]   [wsconfig.read];
    - [Cli]      [print_aligned] and [create_database];
    - [Notions]  further vocabulary and examples.

    Text is [string]; a Python [dict] is an association list in insertion
    order whose keys are pairwise distinct. *)

From Stdlib Require Import List String Ascii Bool Arith ZArith Lia Permutation.
From Stdlib Require DecimalString.
Import ListNotations.
Open Scope string_scope.

Set Warnings "-register-all,-abstract-large-number".

Ltac Zify.zify_post_hook ::= Z.div_mod_to_equations.

(* ================================================================== *)
(** ** Python values the program relies on *)
(* ================================================================== *)

Module Py.

(** The exceptions that can leave the functions modelled here.  The first
    group are Python's own; the second group is the [DatabaseError]
    hierarchy of [wallpaperdatabase.py]. *)
Inductive exn : Type :=
| TypeError | KeyError | IndexError | ValueError | AttributeError
| JSONDecodeError | FileExistsError | OSError
| DatabaseDirectoryNotFoundError | DatabaseModeError | DatabaseLockError
| DatabaseReadError | DatabaseExistsError | DatabaseDecodeError
| DatabaseWriteError | StartpageSetError.


Inductive result (A : Type) : Type :=
| Ok (a : A)
| Raise (e : exn).
Arguments Ok {A} a.
Arguments Raise {A} e.

Definition bind {A B} (m : result A) (k : A -> result B) : result B :=
  match m with
  | Ok a => k a
  | Raise e => Raise e
  end.

Definition is_ok {A} (m : result A) : bool :=
  match m with Ok _ => true | Raise _ => false end.

Section Dict.
Context {V : Type}.

Definition dict := list (string * V).

Definition keys (d : dict) : list string := map fst d.

(** [d[k]] when present *)
Fixpoint get (k : string) (d : dict) : option V :=
  match d with
  | [] => None
  | (k', v) :: r => if String.eqb k k' then Some v else get k r
  end.

(** [k in d] *)
Definition mem (k : string) (d : dict) : bool :=
  match get k d with Some _ => true | None => false end.

(** [d[k] = v]: an existing key keeps its place, a new one goes last. *)
Fixpoint set (k : string) (v : V) (d : dict) : dict :=
  match d with
  | [] => [(k, v)]
  | (k', v') :: r =>
      if String.eqb k k' then (k', v) :: r else (k', v') :: set k v r
  end.

(** [del d[k]] for a key that is present *)
Fixpoint del (k : string) (d : dict) : dict :=
  match d with
  | [] => []
  | (k', v') :: r => if String.eqb k k' then r else (k', v') :: del k r
  end.

(** [a | b] and [a.update(b)] *)
Definition update (a b : dict) : dict :=
  fold_left (fun acc kv => set (fst kv) (snd kv) acc) b a.

(** [dict(pairs)] *)
Definition of_pairs (l : list (string * V)) : dict := update [] l.
End Dict.
Arguments dict V : clear implicits.

(** [needle in hay] for two [str] *)
Fixpoint contains (needle hay : string) : bool :=
  if String.prefix needle hay then true
  else match hay with
       | EmptyString => false
       | String _ r => contains needle r
       end.

(** [s.rfind(".")], [None] for Python's -1 *)
Fixpoint rfind_dot (s : string) : option nat :=
  match s with
  | EmptyString => None
  | String c r =>
      match rfind_dot r with
      | Some i => Some (S i)
      | None => if Ascii.eqb c "." then Some 0 else None
      end
  end.

(** [s[n:]] *)
Fixpoint drop (n : nat) (s : string) : string :=
  match n, s with
  | 0, _ => s
  | S n', String _ r => drop n' r
  | S _, EmptyString => EmptyString
  end.

(** [sep.join(l)] *)
Fixpoint join (sep : string) (l : list string) : string :=
  match l with
  | [] => ""
  | [x] => x
  | x :: r => x ++ sep ++ join sep r
  end.

(** [random.choice(l)] with the drawn number [r] made explicit. *)
Definition choice {A} (r : nat) (l : list A) : option A :=
  nth_error l (r mod List.length l).

End Py.

Notation "x <- m ;; k" := (Py.bind m (fun x => k))
  (at level 61, m at next level, right associativity).

(* ================================================================== *)
(** ** Timestamps *)
(* ================================================================== *)

(** Python's [datetime]: the calendar fields and an optional fixed UTC
    offset in seconds ([tzinfo is None] for a naive value).  The local zone
    of the machine is a parameter [local] of everything that calls
    [astimezone()]. *)
Module Datetime.
Local Open Scope Z_scope.

Record datetime : Type := mk {
  year : Z; month : Z; day : Z;
  hour : Z; minute : Z; second : Z; microsecond : Z;
  tzinfo : option Z
}.

Definition is_leap (y : Z) : bool :=
  ((y mod 4 =? 0) && negb (y mod 100 =? 0)) || (y mod 400 =? 0).

Definition days_in_month (y m : Z) : Z :=
  if m =? 2 then (if is_leap y then 29 else 28)
  else if (m =? 4) || (m =? 6) || (m =? 9) || (m =? 11) then 30
  else 31.

Definition valid_offset (o : option Z) : bool :=
  match o with
  | None => true
  | Some z => (-86400 <? z) && (z <? 86400)
  end.

(** The range checks of the [datetime] constructor. *)
Definition valid (d : datetime) : bool :=
  (1 <=? year d) && (year d <=? 9999) &&
  (1 <=? month d) && (month d <=? 12) &&
  (1 <=? day d) && (day d <=? days_in_month (year d) (month d)) &&
  (0 <=? hour d) && (hour d <? 24) &&
  (0 <=? minute d) && (minute d <? 60) &&
  (0 <=? second d) && (second d <? 60) &&
  (0 <=? microsecond d) && (microsecond d <? 1000000) &&
  valid_offset (tzinfo d).

(** *** [isoformat()] *)

Definition digit (n : Z) : ascii := ascii_of_N (Z.to_N (48 + n)).

(** [n] written with exactly [w] decimal digits. *)
Fixpoint pad (w : nat) (n : Z) : list ascii :=
  match w with
  | O => []
  | S w' => pad w' (n / 10) ++ [digit (n mod 10)]
  end.

Definition offset_chars (o : option Z) : list ascii :=
  match o with
  | None => []
  | Some z =>
      let a := Z.abs z in
      [if z <? 0 then "-"%char else "+"%char]
        ++ pad 2 (a / 3600) ++ [":"%char] ++ pad 2 (a / 60 mod 60)
        ++ (if a mod 60 =? 0 then [] else ":"%char :: pad 2 (a mod 60))
  end.

Definition iso_chars (d : datetime) : list ascii :=
  pad 4 (year d) ++ ["-"%char] ++ pad 2 (month d) ++ ["-"%char]
    ++ pad 2 (day d) ++ ["T"%char]
    ++ pad 2 (hour d) ++ [":"%char] ++ pad 2 (minute d) ++ [":"%char]
    ++ pad 2 (second d)
    ++ (if microsecond d =? 0 then [] else "."%char :: pad 6 (microsecond d))
    ++ offset_chars (tzinfo d).

Definition isoformat (d : datetime) : string :=
  string_of_list_ascii (iso_chars d).

(** *** [fromisoformat()]

    Modelled on the texts [isoformat()] emits: date, one separator
    character, time, optional six-digit fraction, optional offset.  Any
    other text is the [ValueError] case. *)

Definition digit_val (c : ascii) : option Z :=
  let n := Z.of_N (N_of_ascii c) in
  if (48 <=? n) && (n <=? 57) then Some (n - 48) else None.

Fixpoint number_from (acc : Z) (l : list ascii) : option Z :=
  match l with
  | [] => Some acc
  | c :: r =>
      match digit_val c with
      | Some v => number_from (acc * 10 + v) r
      | None => None
      end
  end.

Definition take_num (w : nat) (l : list ascii) : option (Z * list ascii) :=
  if Nat.eqb (List.length (firstn w l)) w then
    match number_from 0 (firstn w l) with
    | Some n => Some (n, skipn w l)
    | None => None
    end
  else None.

Definition expect (c : ascii) (l : list ascii) : option (list ascii) :=
  match l with
  | c' :: r => if Ascii.eqb c c' then Some r else None
  | [] => None
  end.

Definition obind {A B} (m : option A) (k : A -> option B) : option B :=
  match m with Some a => k a | None => None end.

Definition parse_offset (l : list ascii) : option (option Z) :=
  match l with
  | [] => Some None
  | s :: l1 =>
      obind (if Ascii.eqb s "+" then Some 1
             else if Ascii.eqb s "-" then Some (-1) else None) (fun sg =>
      obind (take_num 2 l1) (fun '(hh, l2) =>
      obind (expect ":" l2) (fun l3 =>
      obind (take_num 2 l3) (fun '(mm, l4) =>
      obind (match l4 with
             | [] => Some 0
             | _ => obind (expect ":" l4) (fun l5 =>
                    obind (take_num 2 l5) (fun '(ss, l6) =>
                    match l6 with [] => Some ss | _ => None end))
             end) (fun ss =>
      Some (Some (sg * (hh * 3600 + mm * 60 + ss))))))))
  end.

Definition parse (l : list ascii) : option datetime :=
  obind (take_num 4 l) (fun '(y, l) =>
  obind (expect "-" l) (fun l =>
  obind (take_num 2 l) (fun '(mo, l) =>
  obind (expect "-" l) (fun l =>
  obind (take_num 2 l) (fun '(dd, l) =>
  obind (match l with _ :: r => Some r | [] => None end) (fun l =>
  obind (take_num 2 l) (fun '(h, l) =>
  obind (expect ":" l) (fun l =>
  obind (take_num 2 l) (fun '(mi, l) =>
  obind (expect ":" l) (fun l =>
  obind (take_num 2 l) (fun '(s, l) =>
  obind (match l with
         | "."%char :: r => take_num 6 r
         | _ => Some (0, l)
         end) (fun '(us, l) =>
  obind (parse_offset l) (fun tz =>
  let d := mk y mo dd h mi s us tz in
  if valid d then Some d else None))))))))))))).

Definition fromisoformat (s : string) : option datetime :=
  parse (list_ascii_of_string s).

(** *** Arithmetic on the time line *)

(** Days since 1970-01-01 of a civil date, and back. *)
Definition days_from_civil (y m d : Z) : Z :=
  let y' := if m <=? 2 then y - 1 else y in
  let era := y' / 400 in
  let yoe := y' - era * 400 in
  let doy := (153 * (m + (if 2 <? m then -3 else 9)) + 2) / 5 + d - 1 in
  let doe := yoe * 365 + yoe / 4 - yoe / 100 + doy in
  era * 146097 + doe - 719468.

Definition civil_from_days (z : Z) : Z * Z * Z :=
  let z := z + 719468 in
  let era := z / 146097 in
  let doe := z - era * 146097 in
  let yoe := (doe - doe / 1460 + doe / 36524 - doe / 146096) / 365 in
  let doy := doe - (365 * yoe + yoe / 4 - yoe / 100) in
  let mp := (5 * doy + 2) / 153 in
  let d := doy - (153 * mp + 2) / 5 + 1 in
  let m := if mp <? 10 then mp + 3 else mp - 9 in
  let y := yoe + era * 400 + (if m <=? 2 then 1 else 0) in
  (y, m, d).

(** Seconds since the epoch of the wall-clock fields (offset ignored). *)
Definition wall_seconds (d : datetime) : Z :=
  days_from_civil (year d) (month d) (day d) * 86400
    + hour d * 3600 + minute d * 60 + second d.

(** [d + timedelta(seconds=delta)] on the wall-clock fields. *)
Definition shift (delta : Z) (d : datetime) : datetime :=
  if delta =? 0 then d else
  let t := wall_seconds d + delta in
  let '(y, m, dd) := civil_from_days (t / 86400) in
  let r := t mod 86400 in
  mk y m dd (r / 3600) (r / 60 mod 60) (r mod 60) (microsecond d) (tzinfo d).

(** [d.astimezone()]: a naive value is taken to be local time and gets the
    local offset attached; an aware one is moved to the local offset. *)
Definition astimezone (local : Z) (d : datetime) : datetime :=
  match tzinfo d with
  | None => mk (year d) (month d) (day d) (hour d) (minute d) (second d)
               (microsecond d) (Some local)
  | Some o =>
      let d' := shift (local - o) d in
      mk (year d') (month d') (day d') (hour d') (minute d') (second d')
         (microsecond d') (Some local)
  end.

(** Python's [==] on two timestamps: naive against aware is never equal,
    two aware values are compared as instants. *)
Definition eqb (a b : datetime) : bool :=
  match tzinfo a, tzinfo b with
  | None, None =>
      (wall_seconds a =? wall_seconds b) && (microsecond a =? microsecond b)
  | Some oa, Some ob =>
      (wall_seconds a - oa =? wall_seconds b - ob)
        && (microsecond a =? microsecond b)
  | _, _ => false
  end.

End Datetime.

(* ================================================================== *)
(** ** The typed codec *)
(* ================================================================== *)

Module Codec.
Import Py.

(** A parsed JSON document.  An object keeps its members in document
    order. *)
Inductive json : Type :=
| JNull
| JBool (b : bool)
| JNum (z : Z)
| JStr (s : string)
| JArr (l : list json)
| JObj (members : list (string * json)).

(** The Python values that reach the codec.  [VObj cls d] is an instance
    of class [cls] whose [__dict__] is [d]; [VPath p] is a [PosixPath]
    whose [str()] is [p]; [VOpaque cls] is an instance of a class without
    [__dict__] that [json] cannot write natively (a [set], say). *)
Inductive pyval : Type :=
| VNone
| VBool (b : bool)
| VInt (z : Z)
| VStr (s : string)
| VList (l : list pyval)
| VDict (d : list (string * pyval))
| VDatetime (t : Datetime.datetime)
| VPath (p : string)
| VObj (cls : string) (d : list (string * pyval))
| VOpaque (cls : string).

Definition _TYPE_KEY : string := "_type".

Definition mapM {A B} (f : A -> result B) : list A -> result (list B) :=
  fix go (l : list A) : result (list B) :=
    match l with
    | [] => Ok []
    | x :: r => y <- f x ;; ys <- go r ;; Ok (y :: ys)
    end.

(** *** Encoding *)

(** [_Encoder.default].  [inspect.isclass(type(obj))] holds of every
    object, so the [super().default(obj)] branch is never taken. *)
Definition default (obj : pyval) : result pyval :=
  let type_attr (name : string) : dict pyval := [(_TYPE_KEY, VStr name)] in
  match obj with
  | VObj cls d => Ok (VDict (update d (type_attr cls)))
  | VDatetime t =>
      Ok (VDict (update [("datetime", VStr (Datetime.isoformat t))]
                        (type_attr "datetime")))
  | VPath p => Ok (VDict (update [("path", VStr p)] (type_attr "PosixPath")))
  | _ => Raise TypeError
  end.

(** [json.dump(..., cls=_Encoder)] as a walk over the value: values JSON
    knows are written as they are, any other value is replaced by what
    [default] returns for it and the walk goes on in that.  For an object
    with a [__dict__] the member stored under [_TYPE_KEY], if any, is the
    one [default] overwrites with the class name, so it is not walked. *)
Fixpoint dump (o : pyval) : result json :=
  match o with
  | VNone => Ok JNull
  | VBool b => Ok (JBool b)
  | VInt z => Ok (JNum z)
  | VStr s => Ok (JStr s)
  | VList l => l' <- mapM dump l ;; Ok (JArr l')
  | VDict d =>
      d' <- mapM (fun kv => v <- dump (snd kv) ;; Ok (fst kv, v)) d ;;
      Ok (JObj d')
  | VDatetime t =>
      Ok (JObj [("datetime", JStr (Datetime.isoformat t));
                (_TYPE_KEY, JStr "datetime")])
  | VPath p => Ok (JObj [("path", JStr p); (_TYPE_KEY, JStr "PosixPath")])
  | VObj cls d =>
      d' <- mapM (fun kv =>
                    if String.eqb (fst kv) _TYPE_KEY
                    then Ok (fst kv, JStr cls)
                    else v <- dump (snd kv) ;; Ok (fst kv, v)) d ;;
      Ok (JObj (if mem _TYPE_KEY d then d' else d' ++ [(_TYPE_KEY, JStr cls)]))
  | VOpaque _ => Raise TypeError
  end.

(** *** Decoding *)

(** What [getattr(WallpaperDatabase, name)] finds among the names the
    source declares: a nested dataclass, given by its fields and their
    defaults, or another member (method, property, class-level default).
    [wallpapers] and [startpage] have a [default_factory], hence no class
    attribute.  Names that Python itself adds to every class are not
    listed. *)
Inductive class_attr : Type :=
| NestedRecord (fields : dict pyval)
| Member.

Definition Target_fields : dict pyval :=
  [("updated_at", VNone); ("current", VNone)].

Definition Wallpaper_fields : dict pyval :=
  [("startpage_used", VBool false); ("mobile_suitable", VBool false);
   ("mobile_used", VBool false)].

Definition declared_members : list string :=
  ["base_directory"; "updated_at"; "created_at"; "should_update";
   "__init__"; "__enter__"; "__exit__"; "_open"; "save"; "close";
   "database_info"; "startpage_info"].

Definition getattr_data_class (name : string) : option class_attr :=
  if String.eqb name "Target" then Some (NestedRecord Target_fields)
  else if String.eqb name "Wallpaper" then Some (NestedRecord Wallpaper_fields)
  else if existsb (String.eqb name) declared_members then Some Member
  else None.

(** Calling a dataclass [cls] with the members of [obj] as keywords: every
    keyword must be a field, a field without keyword takes its default. *)
Definition construct (cls : string) (fields obj : dict pyval) : result pyval :=
  if forallb (fun k => mem k fields) (keys obj) then
    Ok (VObj cls (map (fun fd => (fst fd,
                                  match get (fst fd) obj with
                                  | Some v => v
                                  | None => snd fd
                                  end)) fields))
  else Raise TypeError.

(** [_Decoder(WallpaperDatabase).decode], the [object_hook].  The pattern
    [case self.data_class] compares the tag with the class object, which
    no JSON value equals, so that arm is never taken. *)
Definition decode (local : Z) (obj : dict pyval) : result pyval :=
  match get _TYPE_KEY obj with
  | Some type_ =>
      let obj := del _TYPE_KEY obj in
      match type_ with
      | VStr name =>
          if String.eqb name "datetime" then
            match get "datetime" obj with
            | None => Raise KeyError
            | Some (VStr s) =>
                match Datetime.fromisoformat s with
                | Some t => Ok (VDatetime (Datetime.astimezone local t))
                | None => Raise ValueError
                end
            | Some _ => Raise TypeError
            end
          else if String.eqb name "PosixPath" then
            match get "path" obj with
            | None => Raise KeyError
            | Some (VStr s) => Ok (VPath s)
            | Some (VPath s) => Ok (VPath s)
            | Some _ => Raise TypeError
            end
          else
            match getattr_data_class name with
            | Some (NestedRecord fields) => construct name fields obj
            | Some Member => Raise TypeError
            | None => Raise AttributeError
            end
      | _ => Raise TypeError
      end
  | None => Ok (VDict obj)
  end.

(** [json.load(..., object_hook=hook)] on a parsed document: every object
    is turned into a [dict] of its decoded members and handed to the
    hook, innermost first. *)
Fixpoint load (hook : dict pyval -> result pyval) (j : json) : result pyval :=
  match j with
  | JNull => Ok VNone
  | JBool b => Ok (VBool b)
  | JNum z => Ok (VInt z)
  | JStr s => Ok (VStr s)
  | JArr l => l' <- mapM (load hook) l ;; Ok (VList l')
  | JObj members =>
      d <- mapM (fun kv => v <- load hook (snd kv) ;; Ok (fst kv, v)) members ;;
      hook (of_pairs d)
  end.

End Codec.

(* ================================================================== *)
(** ** The database file, its lock and the session around them *)
(* ================================================================== *)

(** What the operating system holds for the one database file, and what
    the session did to it, oldest event first. *)
Module OS.
Import Py Codec.

(** What the file holds: a text [json.load] accepts, given by the document
    it parses to, or anything else (an empty file included). *)
Inductive content : Type :=
| Text (doc : json)
| Malformed.

Inductive lock_kind : Type := Shared | Exclusive.

Inductive event : Type :=
| EvOpen (mode : string)
| EvFlock (operation : Z)
| EvSeek
| EvTruncate
| EvWrite (doc : json)
| EvUnlock
| EvWarn (message : string)
| EvClose.

Record world : Type := mkWorld {
  file : option content;        (* [None]: no file at the database path *)
  held : option lock_kind;      (* the lock this process holds on it *)
  fd_open : bool;               (* the file object is open *)
  log : list event
}.

(** Which system calls fail with [OSError] in the run considered. *)
Record faults : Type := mkFaults {
  open_fails : bool;            (* for a reason other than the mode's own *)
  flock_fails : bool;
  write_fails : bool;
  unlock_fails : bool
}.

Definition no_faults : faults := mkFaults false false false false.

Definition emit (e : event) (w : world) : world :=
  mkWorld (file w) (held w) (fd_open w) (log w ++ [e]).

Definition is_OSError (e : exn) : bool :=
  match e with OSError | FileExistsError => true | _ => false end.

(** [path.open(mode)] for the four modes [_open] uses. *)
Definition path_open (f : faults) (mode : string) (w : world)
  : result unit * world :=
  if open_fails f then (Raise OSError, w)
  else if String.eqb mode "r" || String.eqb mode "r+" then
    match file w with
    | None => (Raise OSError, w)
    | Some c => (Ok tt, emit (EvOpen mode) (mkWorld (Some c) (held w) true (log w)))
    end
  else if String.eqb mode "w+" then
    (Ok tt, emit (EvOpen mode) (mkWorld (Some Malformed) (held w) true (log w)))
  else
    match file w with
    | Some _ => (Raise FileExistsError, w)
    | None =>
        (Ok tt, emit (EvOpen mode) (mkWorld (Some Malformed) (held w) true (log w)))
    end.

End OS.

(** [lock.py] *)
Module FileLock.
Import Py OS.
Local Open Scope Z_scope.

Definition LOCK_SH : Z := 1.
Definition LOCK_EX : Z := 2.
Definition LOCK_NB : Z := 4.
Definition LOCK_UN : Z := 8.

Record t : Type := mk { _operation : Z; _locked : bool }.

Definition __init__ (shared blocking : bool) : t :=
  let op := if shared then LOCK_SH else LOCK_EX in
  let op := if negb blocking then Z.lor op LOCK_NB else op in
  mk op false.

(** The kind of lock [flock] grants for an operation word. *)
Definition kind_of (operation : Z) : lock_kind :=
  if Z.testbit operation 1 then Exclusive else Shared.

Definition acquire (f : faults) (l : t) (w : world) : result t * world :=
  if flock_fails f then (Raise OSError, w)
  else (Ok (mk (_operation l) true),
        emit (EvFlock (_operation l))
             (mkWorld (file w) (Some (kind_of (_operation l))) (fd_open w) (log w))).

Definition release (f : faults) (l : t) (w : world) : result t * world :=
  if _locked l then
    if unlock_fails f then (Raise OSError, w)
    else (Ok (mk (_operation l) false),
          emit EvUnlock (mkWorld (file w) None (fd_open w) (log w)))
  else (Ok l, w).

Definition locked (l : t) : bool := _locked l.

End FileLock.

Module Session.
Import Py Codec OS.

(** A [WallpaperDatabase] object: the private attributes the methods use
    and [vars], the public part of the instance [__dict__] (the attributes
    whose name does not start with an underscore). *)
Record WallpaperDatabase : Type := mk {
  _mode : string;
  _writeback : bool;
  _lock : FileLock.t;
  vars : dict pyval
}.

(** The fields of [_WallpaperData] with their defaults, in declaration
    order; the [default_factory] ones are evaluated. *)
Definition WallpaperData_fields : dict pyval :=
  [("base_directory", VNone); ("wallpapers", VDict []);
   ("updated_at", VNone); ("created_at", VNone);
   ("should_update", VBool false); ("startpage", VObj "Target" Target_fields)].

(** The call of [_WallpaperData.__init__] with the members of [db_dict] as
    keywords: [db_dict] must be a mapping whose keys are fields. *)
Definition init_data (db_dict : pyval) : result (dict pyval) :=
  match db_dict with
  | VDict d =>
      if forallb (fun k => mem k WallpaperData_fields) (keys d) then
        Ok (map (fun fd => (fst fd, match get (fst fd) d with
                                    | Some v => v
                                    | None => snd fd
                                    end)) WallpaperData_fields)
      else Raise TypeError
  | _ => Raise TypeError
  end.

(** [try: m except <matching>: raise dst] *)
Definition except {A} (matching : exn -> bool) (dst : exn) (m : result A)
  : result A :=
  match m with
  | Raise e => if matching e then Raise dst else Raise e
  | Ok a => Ok a
  end.

Definition is_KeyError (e : exn) : bool :=
  match e with KeyError => true | _ => false end.
Definition is_FileExistsError (e : exn) : bool :=
  match e with FileExistsError => true | _ => false end.
Definition is_JSONDecodeError (e : exn) : bool :=
  match e with JSONDecodeError => true | _ => false end.

(** The table in [_open] from the database mode to the file mode. *)
Definition file_mode (mode : string) : result string :=
  if String.eqb mode "r" then Ok "r"
  else if String.eqb mode "w" then Ok "r+"
  else if String.eqb mode "n" then Ok "w+"
  else if String.eqb mode "c" then Ok "x"
  else Raise KeyError.

(** [json.load(self._file_object, object_hook=...)] *)
Definition json_load (local : Z) (w : world) : result pyval :=
  match file w with
  | Some (Text doc) => load (decode local) doc
  | _ => Raise JSONDecodeError
  end.

(** [WallpaperDatabase.__init__] followed by [_open]. *)
Definition _open (local : Z) (f : faults) (mode : string) (w : world)
  : result WallpaperDatabase * world :=
  match except is_KeyError DatabaseModeError (file_mode mode) with
  | Raise e => (Raise e, w)
  | Ok fmode =>
      let (opened, w1) := path_open f fmode w in
      match except is_OSError DatabaseReadError
              (except is_FileExistsError DatabaseExistsError opened) with
      | Raise e => (Raise e, w1)
      | Ok _ =>
          let (got, w2) :=
            FileLock.acquire f (FileLock.__init__ (String.eqb mode "r") true) w1 in
          match except is_OSError DatabaseLockError got with
          | Raise e => (Raise e, w2)
          | Ok lock =>
              if String.eqb mode "r" || String.eqb mode "w" then
                match except is_JSONDecodeError DatabaseDecodeError
                        (json_load local w2) with
                | Raise e => (Raise e, w2)
                | Ok db_dict =>
                    match init_data db_dict with
                    | Raise e => (Raise e, w2)
                    | Ok d => (Ok (mk mode false lock d), w2)
                    end
                end
              else (Ok (mk mode false lock []), w2)
          end
      end
  end.

Definition __enter__ (self : WallpaperDatabase) : WallpaperDatabase :=
  if negb (String.eqb (_mode self) "r")
  then mk (_mode self) true (_lock self) (vars self)
  else self.

(** [save]: rewind, truncate, then write the public attributes. *)
Definition save (f : faults) (self : WallpaperDatabase) (w : world)
  : result unit * world :=
  let w1 := emit EvTruncate
              (emit EvSeek (mkWorld (Some Malformed) (held w) (fd_open w) (log w))) in
  let attrs := filter (fun kv => negb (String.prefix "_" (fst kv))) (vars self) in
  match dump (VDict attrs) with
  | Raise e => (Raise e, w1)
  | Ok doc =>
      if write_fails f then (Raise DatabaseWriteError, w1)
      else (Ok tt, emit (EvWrite doc)
                        (mkWorld (Some (Text doc)) (held w1) (fd_open w1) (log w1)))
  end.

(** [close]: a failing unlock is turned into a warning; closing the file
    object also drops whatever lock the descriptor still holds. *)
Definition close (f : faults) (self : WallpaperDatabase) (w : world)
  : WallpaperDatabase * world :=
  let (self1, w1) :=
    if FileLock.locked (_lock self) then
      match FileLock.release f (_lock self) w with
      | (Ok l, w') => (mk (_mode self) (_writeback self) l (vars self), w')
      | (Raise _, w') =>
          (self, emit (EvWarn "Failed to release lock on database") w')
      end
    else (self, w) in
  if fd_open w1
  then (self1, emit EvClose (mkWorld (file w1) None false (log w1)))
  else (self1, w1).

(** [__exit__]; [exc] is the exception that leaves the [with] body, if
    any.  The result is the exception [__exit__] itself raises, if any. *)
Definition __exit__ (f : faults) (exc : option exn) (self : WallpaperDatabase)
    (w : world) : result unit * world :=
  let (saved, w1) :=
    match exc with
    | None => if _writeback self then save f self w else (Ok tt, w)
    | Some _ => (Ok tt, w)
    end in
  match saved with
  | Raise e => (Raise e, w1)
  | Ok _ => (Ok tt, snd (close f self w1))
  end.

End Session.

(* ================================================================== *)
(** ** Paths and the wallpaper directory *)
(* ================================================================== *)

(** A [Path] is given by its [str()].  The directory tree is described
    from the directories the program walks: for each directory that exists,
    the entries below it, by their path relative to it. *)
Module Fs.
Import Py.

Inductive kind : Type := File | Dir.

Definition disk : Type := dict (dict kind).

(** [d.is_dir()] *)
Definition is_dir (dk : disk) (d : string) : bool := mem d dk.

(** [d / rel] for a relative [rel] *)
Definition joinpath (d rel : string) : string :=
  if String.eqb d "." then rel
  else if String.eqb d "/" then d ++ rel
  else d ++ "/" ++ rel.

(** [(d / rel).is_file()] *)
Definition is_file (dk : disk) (d rel : string) : bool :=
  match get d dk with
  | Some below => match get rel below with Some File => true | _ => false end
  | None => false
  end.

(** [d.rglob("*")]: every entry below [d], files and directories alike;
    nothing when [d] does not exist. *)
Definition rglob (dk : disk) (d : string) : list string :=
  match get d dk with
  | Some below => map (fun e => joinpath d (fst e)) below
  | None => []
  end.

(** The text cut at every ["/"], empty pieces dropped; [acc] is the piece
    being read. *)
Fixpoint segments (acc s : string) : list string :=
  match s with
  | EmptyString => if String.eqb acc "" then [] else [acc]
  | String c r =>
      if Ascii.eqb c "/" then
        (if String.eqb acc "" then segments "" r else acc :: segments "" r)
      else segments (acc ++ String c "") r
  end.

(** [p.parts] *)
Definition parts (p : string) : list string :=
  if String.eqb p "." then []
  else (if String.prefix "/" p then ["/"] else []) ++ segments "" p.

(** [p.name] *)
Definition name (p : string) : string := last (segments "" p) "".

(** [p.suffix]: from the last dot of the name on, unless that dot is the
    first or the last character. *)
Definition suffix (p : string) : string :=
  let n := name p in
  match rfind_dot n with
  | Some i => if (0 <? i)%nat && (i <? String.length n - 1)%nat
              then drop i n else ""
  | None => ""
  end.

End Fs.

(* ================================================================== *)
(** ** The catalogue and the operations on it *)
(* ================================================================== *)

Module Catalog.
Import Py Codec OS Session Fs.

(** [_WallpaperData] with the types its annotations give. *)
Record Target : Type := mkTarget {
  target_updated_at : option Datetime.datetime;
  current : option string
}.

Record Wallpaper : Type := mkWallpaper {
  startpage_used : bool;
  mobile_suitable : bool;
  mobile_used : bool
}.

Record WallpaperData : Type := mkData {
  base_directory : option string;
  wallpapers : dict Wallpaper;
  updated_at : option Datetime.datetime;
  created_at : option Datetime.datetime;
  should_update : bool;
  startpage : Target
}.

(** [_WallpaperData.Wallpaper()] *)
Definition Wallpaper_default : Wallpaper := mkWallpaper false false false.

(** [dict.fromkeys(ks, v)] *)
Definition fromkeys {V} (ks : list string) (v : V) : dict V :=
  of_pairs (map (fun k => (k, v)) ks).

(** [set(l)], kept as a list without repetition, and [a.difference(b)]. *)
Definition to_set (l : list string) : list string := nodup string_dec l.

Definition inb (k : string) (l : list string) : bool :=
  existsb (String.eqb k) l.

Definition difference (a b : list string) : list string :=
  filter (fun k => negb (inb k b)) a.

(** *** [_list_wallpapers] *)

Definition image_suffixes : list string := [".png"; ".jpeg"; ".jpg"; ".gif"].

(** The test of the loop body: some part of the path of [file] starts with
    a dot, or its suffix is not an image one. *)
Definition skipped (file : string) : bool :=
  existsb (fun part => String.prefix "." part) (parts file)
  || negb (inb (suffix file) image_suffixes).

Definition _list_wallpapers (dk : disk) (directory : string) : list string :=
  let dir_len := String.length directory + 1 in
  map (fun file => drop dir_len file)
      (filter (fun file => negb (skipped file)) (rglob dk directory)).

(** *** [refresh] *)

(** The body of the [with] block of [refresh], with the value returned
    after it. *)
Definition refresh_body (dk : disk) (now : Datetime.datetime)
    (db : WallpaperData) : result (nat * nat) * WallpaperData :=
  match base_directory db with
  | None => (Raise AttributeError, db)
  | Some dir =>
      let walls_disk := to_set (_list_wallpapers dk dir) in
      let walls_db := to_set (keys (wallpapers db)) in
      let walls_deleted := difference walls_db walls_disk in
      let walls_new := difference walls_disk walls_db in
      let ws := update (wallpapers db) (fromkeys walls_new Wallpaper_default) in
      let ws := fold_left (fun d wall => del wall d) walls_deleted ws in
      (Ok (List.length walls_new, List.length walls_deleted),
       mkData (base_directory db) ws (Some now) (created_at db)
              (should_update db) (startpage db))
  end.

(** *** [set_startpage] *)

(** What the search reads and writes: the open database, the list
    [walls_unused], the file the startpage background links to, the
    numbers [random] will draw, and the warnings issued. *)
Record search : Type := mkSearch {
  db : WallpaperData;
  walls_unused : list string;
  background : option string;
  draws : list nat;
  warnings : nat
}.

Definition next_draw (l : list nat) : nat * list nat :=
  match l with
  | [] => (0, [])
  | r :: l' => (r, l')
  end.

(** [walls_unused.remove(k)] *)
Fixpoint remove_first (k : string) (l : list string) : list string :=
  match l with
  | [] => []
  | x :: r => if String.eqb k x then r else x :: remove_first k r
  end.

(** [d[k].startpage_used = b] *)
Definition mark (k : string) (b : bool) (d : dict Wallpaper) : dict Wallpaper :=
  map (fun kv => if String.eqb k (fst kv)
                 then (fst kv, mkWallpaper b (mobile_suitable (snd kv))
                                           (mobile_used (snd kv)))
                 else kv) d.

Definition with_wallpapers (ws : dict Wallpaper) (d : WallpaperData) :=
  mkData (base_directory d) ws (updated_at d) (created_at d)
         (should_update d) (startpage d).

(** The inner function [_set_startpage]; [n] counts the iterations of its
    [for] loop that remain. *)
Fixpoint _set_startpage (dk : disk) (now : Datetime.datetime) (n : nat)
    (st : search) : result bool * search :=
  match n with
  | O => (Ok false, st)
  | S n' =>
      let (r, rest) := next_draw (draws st) in
      match choice r (walls_unused st), base_directory (db st) with
      | None, _ => (Raise IndexError, st)
      | Some _, None => (Raise TypeError, st)
      | Some wall_new, Some dir =>
          let wall_path := joinpath dir wall_new in
          if is_file dk dir wall_new then
            (Ok true,
             mkSearch
               (mkData (base_directory (db st))
                       (mark wall_new true (wallpapers (db st)))
                       (updated_at (db st)) (created_at (db st))
                       (should_update (db st))
                       (mkTarget (Some now) (Some wall_path)))
               (walls_unused st) (Some wall_path) rest (warnings st))
          else
            _set_startpage dk now n'
              (mkSearch
                 (mkData (base_directory (db st)) (wallpapers (db st))
                         (updated_at (db st)) (created_at (db st))
                         true (startpage (db st)))
                 (remove_first wall_new (walls_unused st))
                 (background st) rest (S (warnings st)))
      end
  end.

(** [not any(ex in p for ex in exclusions)] *)
Definition included (exclusions : list string) (p : string) : bool :=
  negb (existsb (fun ex => contains ex p) exclusions).

Definition reset_used (d : dict Wallpaper) : dict Wallpaper :=
  map (fun kv => (fst kv, mkWallpaper false (mobile_suitable (snd kv))
                                      (mobile_used (snd kv)))) d.

(** The [for _ in range(2)] loop; [Ok false] is its [else] branch. *)
Fixpoint rounds (dk : disk) (now : Datetime.datetime)
    (walls_included : list string) (k : nat) (st : search)
  : result bool * search :=
  match k with
  | O => (Ok false, st)
  | S k' =>
      match _set_startpage dk now (List.length (walls_unused st)) st with
      | (Raise e, st') => (Raise e, st')
      | (Ok true, st') => (Ok true, st')
      | (Ok false, st') =>
          if (List.length (walls_unused st') =? 0)%nat then
            rounds dk now walls_included k'
              (mkSearch (with_wallpapers (reset_used (wallpapers (db st'))) (db st'))
                        walls_included (background st') (draws st') (warnings st'))
          else rounds dk now walls_included k' st'
      end
  end.

(** The body of the [with] block of [set_startpage].  The function has no
    [return] statement: what it hands back on success is [None]. *)
Definition set_startpage_body (dk : disk) (now : Datetime.datetime)
    (exclusions : list string) (st : search) : result pyval * search :=
  let walls_included := filter (included exclusions) (keys (wallpapers (db st))) in
  if (List.length walls_included =? 0)%nat then (Raise StartpageSetError, st)
  else
    let unused :=
      filter (fun k => match get k (wallpapers (db st)) with
                       | Some v => negb (startpage_used v)
                       | None => false
                       end) walls_included in
    match rounds dk now walls_included 2
            (mkSearch (db st) unused (background st) (draws st) (warnings st)) with
    | (Raise e, st') => (Raise e, st')
    | (Ok true, st') => (Ok VNone, st')
    | (Ok false, st') => (Raise StartpageSetError, st')
    end.

(** *** The catalogue as the session holds it *)

Definition py_datetime (o : option Datetime.datetime) : pyval :=
  match o with Some t => VDatetime t | None => VNone end.

Definition py_path (o : option string) : pyval :=
  match o with Some p => VPath p | None => VNone end.

Definition py_wallpaper (w : Wallpaper) : pyval :=
  VObj "Wallpaper"
    [("startpage_used", VBool (startpage_used w));
     ("mobile_suitable", VBool (mobile_suitable w));
     ("mobile_used", VBool (mobile_used w))].

Definition py_target (t : Target) : pyval :=
  VObj "Target"
    [("updated_at", py_datetime (target_updated_at t));
     ("current", py_path (current t))].

(** The public instance attributes of a session that holds [d]. *)
Definition to_vars (d : WallpaperData) : dict pyval :=
  [("base_directory", py_path (base_directory d));
   ("wallpapers",
    VDict (map (fun kv => (fst kv, py_wallpaper (snd kv))) (wallpapers d)));
   ("updated_at", py_datetime (updated_at d));
   ("created_at", py_datetime (created_at d));
   ("should_update", VBool (should_update d));
   ("startpage", py_target (startpage d))].

Definition as_datetime (v : pyval) : option (option Datetime.datetime) :=
  match v with
  | VNone => Some None
  | VDatetime t => Some (Some t)
  | _ => None
  end.

Definition as_path (v : pyval) : option (option string) :=
  match v with
  | VNone => Some None
  | VPath p => Some (Some p)
  | _ => None
  end.

Definition as_wallpaper (v : pyval) : option Wallpaper :=
  match v with
  | VObj cls [(_, VBool a); (_, VBool b); (_, VBool c)] =>
      if String.eqb cls "Wallpaper" then Some (mkWallpaper a b c) else None
  | _ => None
  end.

Definition as_target (v : pyval) : option Target :=
  match v with
  | VObj cls [(_, u); (_, c)] =>
      if String.eqb cls "Target" then
        match as_datetime u, as_path c with
        | Some u', Some c' => Some (mkTarget u' c')
        | _, _ => None
        end
      else None
  | _ => None
  end.

Fixpoint as_wallpapers (d : dict pyval) : option (dict Wallpaper) :=
  match d with
  | [] => Some []
  | (k, v) :: r =>
      match as_wallpaper v, as_wallpapers r with
      | Some w, Some r' => Some ((k, w) :: r')
      | _, _ => None
      end
  end.

(** The catalogue a loaded session holds, when every attribute has the
    type the program gives it. *)
Definition of_vars (vs : dict pyval) : option WallpaperData :=
  match vs with
  | [(_, b); (_, VDict ws); (_, u); (_, c); (_, VBool s); (_, t)] =>
      match as_path b, as_wallpapers ws, as_datetime u, as_datetime c, as_target t with
      | Some b', Some ws', Some u', Some c', Some t' =>
          Some (mkData b' ws' u' c' s t')
      | _, _, _, _, _ => None
      end
  | _ => None
  end.

(** *** The [with open(...) as db] statement *)

(** [body] may change the attributes of the session and ends with a value
    or an exception; [__exit__] returns [None], so an exception of the
    body goes on after it. *)
Definition with_open {A} (local : Z) (f : faults) (mode : string)
    (body : dict pyval -> result A * dict pyval) (w : world)
  : result A * world :=
  match _open local f mode w with
  | (Raise e, w1) => (Raise e, w1)
  | (Ok self, w1) =>
      let self := __enter__ self in
      let (r, vs) := body (vars self) in
      let self := Session.mk (_mode self) (_writeback self) (_lock self) vs in
      match r with
      | Ok a =>
          match __exit__ f None self w1 with
          | (Raise e, w2) => (Raise e, w2)
          | (Ok _, w2) => (Ok a, w2)
          end
      | Raise e =>
          match __exit__ f (Some e) self w1 with
          | (Raise e', w2) => (Raise e', w2)
          | (Ok _, w2) => (Raise e, w2)
          end
      end
  end.



(** [set_startpage]; besides the database file the call changes the
    startpage background and uses up random draws. *)
Definition set_startpage (local : Z) (f : faults) (dk : disk)
    (now : Datetime.datetime) (exclusions : list string)
    (bg : option string) (seed : list nat) (w : world)
  : result pyval * (world * option string) :=
  match _open local f "w" w with
  | (Raise e, w1) => (Raise e, (w1, bg))
  | (Ok self, w1) =>
      let self := __enter__ self in
      match of_vars (vars self) with
      | None => (Raise TypeError, (snd (__exit__ f (Some TypeError) self w1), bg))
      | Some d =>
          let (r, st) :=
            set_startpage_body dk now exclusions (mkSearch d [] bg seed 0) in
          let self := Session.mk (_mode self) (_writeback self) (_lock self)
                                 (to_vars (db st)) in
          match r with
          | Ok a =>
              match __exit__ f None self w1 with
              | (Raise e, w2) => (Raise e, (w2, background st))
              | (Ok _, w2) => (Ok a, (w2, background st))
              end
          | Raise e =>
              match __exit__ f (Some e) self w1 with
              | (Raise e', w2) => (Raise e', (w2, background st))
              | (Ok _, w2) => (Raise e, (w2, background st))
              end
          end
      end
  end.

(** *** [create] *)

Record DatabaseInfo : Type := mkInfo {
  info_wallpaper_directory : string;
  info_total_wallpapers : nat;
  info_created_at : Datetime.datetime;
  info_updated_at : option Datetime.datetime;
  info_should_update : bool
}.

(** [create], for a database path whose parent directory exists.  The
    session is a new one, so [updated_at] and [should_update] read as the
    class defaults in [database_info]. *)
Definition create (local : Z) (f : faults) (dk : disk)
    (now : Datetime.datetime) (base : string) (force : bool) (w : world)
  : result DatabaseInfo * world :=
  if negb (is_dir dk base) then (Raise DatabaseDirectoryNotFoundError, w)
  else
    let mode := if force then "n" else "c" in
    with_open local f mode
      (fun vs =>
         let walls := _list_wallpapers dk base in
         let ws := fromkeys walls Wallpaper_default in
         let vs := set "base_directory" (VPath base) vs in
         let vs := set "wallpapers"
                       (VDict (map (fun kv => (fst kv, py_wallpaper (snd kv))) ws))
                       vs in
         let vs := set "created_at" (VDatetime now) vs in
         (Ok (mkInfo base (List.length ws) now None false), vs)) w.

End Catalog.

(* ================================================================== *)
(** ** Vocabulary of the statements *)
(* ================================================================== *)

Module Spec.
Import Py Codec OS Session Fs Catalog.
Local Open Scope list_scope.

(** The four modes [_open] knows. *)
Definition recognized (m : string) : Prop :=
  m = "r" \/ m = "w" \/ m = "n" \/ m = "c".

(** The lock a session opened in mode [m] is to hold. *)
Definition lock_for (m : string) : lock_kind :=
  if String.eqb m "r" then Shared else Exclusive.

(** The attributes [save] writes. *)
Definition public_attrs (self : WallpaperDatabase) : dict pyval :=
  filter (fun kv => negb (String.prefix "_" (fst kv))) (vars self).

(** What an attempt to unlock leaves in the log. *)
Definition unlock_events (f : faults) : list event :=
  if unlock_fails f then [EvWarn "Failed to release lock on database"]
  else [EvUnlock].

(** The teardown the specification describes for a writable session: the
    record is written over the whole file, then the lock is released,
    then the descriptor is closed. *)
Definition teardown_runs (f : faults) (exc : option exn)
    (self : WallpaperDatabase) (w : world) : Prop :=
  exists doc,
    dump (VDict (public_attrs self)) = Ok doc
    /\ file (snd (__exit__ f exc self w)) = Some (Text doc)
    /\ log (snd (__exit__ f exc self w))
       = log w ++ [EvSeek; EvTruncate; EvWrite doc] ++ unlock_events f ++ [EvClose]
    /\ fd_open (snd (__exit__ f exc self w)) = false.

(** A session opened for writing on a file that holds the empty object,
    after its body has set [should_update]. *)
Definition stored_empty : world := mkWorld (Some (Text (JObj []))) None false [].

Definition dirty_session : WallpaperDatabase :=
  match fst (_open 0 no_faults "w" stored_empty) with
  | Ok self =>
      Session.mk (_mode (__enter__ self)) (_writeback (__enter__ self))
                 (_lock (__enter__ self))
                 (set "should_update" (VBool true) (vars self))
  | Raise _ => Session.mk "w" true (FileLock.mk 2 true) []
  end.

Definition dirty_world : world := snd (_open 0 no_faults "w" stored_empty).

(** How a run of the search loop relates the state it ends in to the state
    it started from, whatever its outcome: entries only leave
    [walls_unused], those that left have no file under [dir], one warning
    was issued for each, [should_update] is raised by the first of them,
    and nothing else of the record moves but what a hit writes. *)
Definition searched (dk : disk) (dir : string) (st st' : search) : Prop :=
  incl (walls_unused st') (walls_unused st)
  /\ (NoDup (walls_unused st) -> NoDup (walls_unused st'))
  /\ (forall x, In x (walls_unused st) -> ~ In x (walls_unused st') ->
        is_file dk dir x = false)
  /\ warnings st' + List.length (walls_unused st')
     = warnings st + List.length (walls_unused st)
  /\ warnings st <= warnings st'
  /\ (warnings st' = warnings st -> should_update (db st') = should_update (db st))
  /\ (warnings st < warnings st' -> should_update (db st') = true)
  /\ base_directory (db st') = base_directory (db st).

(** The state a hit on [k] leaves. *)
Definition hit (now : Datetime.datetime) (dir k : string) (st st' : search) : Prop :=
  wallpapers (db st') = mark k true (wallpapers (db st))
  /\ background st' = Some (joinpath dir k)
  /\ startpage (db st') = mkTarget (Some now) (Some (joinpath dir k)).

(** The state a miss leaves. *)
Definition miss (st st' : search) : Prop :=
  wallpapers (db st') = wallpapers (db st)
  /\ background st' = background st
  /\ startpage (db st') = startpage (db st).

(** An entry counts as unused when its [startpage_used] is [False]. *)
Definition unused_in (ws : dict Wallpaper) (k : string) : bool :=
  match get k ws with
  | Some v => negb (startpage_used v)
  | None => false
  end.

(** An entry is eligible when no exclusion applies to its key and its
    file exists under the base directory; the pool is the eligible keys. *)
Definition eligible (dk : disk) (dir : string) (exclusions : list string)
    (k : string) : bool :=
  included exclusions k && is_file dk dir k.

Definition pool (dk : disk) (dir : string) (exclusions : list string)
    (ws : dict Wallpaper) : list string :=
  filter (eligible dk dir exclusions) (keys ws).

Definition unused_pool (dk : disk) (dir : string) (exclusions : list string)
    (ws : dict Wallpaper) : list string :=
  filter (unused_in ws) (pool dk dir exclusions ws).

(** What warnings say about [should_update]. *)
Definition flagged (st st' : search) : Prop :=
  warnings st <= warnings st'
  /\ (warnings st' = warnings st -> should_update (db st') = should_update (db st))
  /\ (warnings st < warnings st' -> should_update (db st') = true)
  /\ base_directory (db st') = base_directory (db st).

(** The document [save] writes for a catalogue. *)
Definition json_datetime (o : option Datetime.datetime) : json :=
  match o with
  | Some t => JObj [("datetime", JStr (Datetime.isoformat t));
                    (_TYPE_KEY, JStr "datetime")]
  | None => JNull
  end.

Definition json_path (o : option string) : json :=
  match o with
  | Some p => JObj [("path", JStr p); (_TYPE_KEY, JStr "PosixPath")]
  | None => JNull
  end.

Definition json_wallpaper (v : Wallpaper) : json :=
  JObj [("startpage_used", JBool (startpage_used v));
        ("mobile_suitable", JBool (mobile_suitable v));
        ("mobile_used", JBool (mobile_used v));
        (_TYPE_KEY, JStr "Wallpaper")].

Definition json_target (t : Target) : json :=
  JObj [("updated_at", json_datetime (target_updated_at t));
        ("current", json_path (current t));
        (_TYPE_KEY, JStr "Target")].

Definition json_of_data (d : WallpaperData) : json :=
  JObj [("base_directory", json_path (base_directory d));
        ("wallpapers",
         JObj (map (fun kv => (fst kv, json_wallpaper (snd kv))) (wallpapers d)));
        ("updated_at", json_datetime (updated_at d));
        ("created_at", json_datetime (created_at d));
        ("should_update", JBool (should_update d));
        ("startpage", json_target (startpage d))].

(** The path a document records as [startpage.current]. *)
Definition startpage_current (doc : json) : option string :=
  match doc with
  | JObj ms =>
      match get "startpage" ms with
      | Some (JObj t) =>
          match get "current" t with
          | Some (JObj c) =>
              match get "path" c with
              | Some (JStr p) => Some p
              | _ => None
              end
          | _ => None
          end
      | _ => None
      end
  | _ => None
  end.

(** A small catalogue: two files exist under the base directory, a third
    entry, [gone.png], lost its file. *)
Definition example_dir : string := "/home/u/walls".

Definition example_disk : disk :=
  [(example_dir, [("wall1.png", File); ("wall2.jpg", File)])].

Definition example_now : Datetime.datetime :=
  Datetime.mk 2024 3 1 9 30 5 0 None.

Definition example_data : WallpaperData :=
  mkData (Some example_dir)
         (fromkeys ["wall1.png"; "gone.png"; "wall2.jpg"] Wallpaper_default)
         None None false (mkTarget None None).

(** The search about to start on it; the first number drawn points at
    [gone.png]. *)
Definition example_search : search := mkSearch example_data [] None [1; 0] 0.

(** The catalogue the next session loads after this one was saved: the
    decoder moves every timestamp to the local zone and leaves the rest. *)
Definition reload (local : Z) (d : WallpaperData) : WallpaperData :=
  mkData (base_directory d) (wallpapers d)
         (option_map (Datetime.astimezone local) (updated_at d))
         (option_map (Datetime.astimezone local) (created_at d))
         (should_update d)
         (mkTarget (option_map (Datetime.astimezone local)
                               (target_updated_at (startpage d)))
                   (current (startpage d))).








(** One selection on the database file that holds [example_data], and
    what it ends with. *)
Definition example_world : world :=
  mkWorld (Some (Text (json_of_data example_data))) None false [].

Definition example_selection : result pyval * (world * option string) :=
  Eval vm_compute in
    set_startpage 0 no_faults example_disk example_now [] None [1; 0]
                  example_world.

(** *** Values the codec supports *)

Fixpoint nodupb (l : list string) : bool :=
  match l with
  | [] => true
  | x :: r => negb (inb x r) && nodupb r
  end.

Definition same_keys (a b : list string) : bool :=
  if list_eq_dec string_dec a b then true else false.

(** The [__dict__] of an instance of one of the two nested dataclasses
    has exactly the fields of the class, in declaration order. *)
Definition record_shape (cls : string) (ks : list string) : bool :=
  (String.eqb cls "Target" && same_keys ks (keys Target_fields))
  || (String.eqb cls "Wallpaper" && same_keys ks (keys Wallpaper_fields)).

(** A supported value: [None], booleans, integers, strings, lists,
    paths, timestamps the [datetime] constructor accepts, mappings with
    distinct keys none of which is the reserved [_TYPE_KEY], and [Target]
    and [Wallpaper] records, all of supported values. *)
Fixpoint supported (v : pyval) : bool :=
  match v with
  | VNone | VBool _ | VInt _ | VStr _ | VPath _ => true
  | VList l => forallb supported l
  | VDict d =>
      nodupb (keys d) && negb (inb _TYPE_KEY (keys d))
      && forallb (fun kv => supported (snd kv)) d
  | VDatetime t => Datetime.valid t
  | VObj cls d =>
      record_shape cls (keys d) && forallb (fun kv => supported (snd kv)) d
  | VOpaque _ => false
  end.

(** The value with every timestamp in it passed through [astimezone()]. *)
Fixpoint normalize (local : Z) (v : pyval) : pyval :=
  match v with
  | VDatetime t => VDatetime (Datetime.astimezone local t)
  | VList l => VList (map (normalize local) l)
  | VDict d => VDict (map (fun kv => (fst kv, normalize local (snd kv))) d)
  | VObj cls d =>
      VObj cls (map (fun kv => (fst kv, normalize local (snd kv))) d)
  | _ => v
  end.





(** *** Type tags *)








End Spec.

(* ================================================================== *)
(** ** The lock as a context manager *)
(* ================================================================== *)

(** [with FileLock(file_object, shared, blocking) as lock: body], from
    [FileLock.__enter__] and [FileLock.__exit__]. *)
Module LockScope.
Import Py OS.

Definition __enter__ (f : faults) (l : FileLock.t) (w : world)
  : result FileLock.t * world :=
  FileLock.acquire f l w.

(** [__exit__] releases and returns [None]: an exception of the body
    goes on after it. *)
Definition __exit__ (f : faults) (l : FileLock.t) (w : world)
  : result FileLock.t * world :=
  FileLock.release f l w.

(** The [with] statement around a body that works on the file; the lock
    object is returned as the statement leaves it. *)
Definition with_lock {A} (f : faults) (l : FileLock.t)
    (body : world -> result A * world) (w : world)
  : result A * FileLock.t * world :=
  match __enter__ f l w with
  | (Raise e, w1) => (Raise e, l, w1)
  | (Ok l1, w1) =>
      let (r, w2) := body w1 in
      match __exit__ f l1 w2 with
      | (Raise e, w3) => (Raise e, l1, w3)
      | (Ok l2, w3) => (r, l2, w3)
      end
  end.

End LockScope.

(* ================================================================== *)
(** ** The two summaries of a session *)
(* ================================================================== *)

(** The properties [database_info] and [startpage_info] of a session
    that has loaded its catalogue ([database_path] is left out: there is
    one database file). *)
Module Views.
Import Py Catalog.

Record DatabaseSummary : Type := mkSummary {
  wallpaper_directory : option string;
  total_wallpapers : nat;
  summary_created_at : option Datetime.datetime;
  summary_updated_at : option Datetime.datetime;
  summary_should_update : bool
}.

Definition database_info (self : WallpaperData) : DatabaseSummary :=
  mkSummary (base_directory self) (List.length (wallpapers self))
            (created_at self) (updated_at self) (should_update self).


End Views.

(* ================================================================== *)
(** ** The configuration file *)
(* ================================================================== *)

(** [wsconfig.py].  [tomllib] is not modelled: what it makes of the file
    is given, as the table it returns or the exception it raises. *)
Module Config.
Import Py Fs.
Local Open Scope list_scope.

(** The values [tomllib.load] builds, floats and dates left out. *)
Inductive toml : Type :=
| TStr (s : string)
| TInt (z : Z)
| TBool (b : bool)
| TArray (l : list toml)
| TTable (t : list (string * toml)).

(** What can leave [read]: its own [ConfigError], the two exceptions of
    [tomllib.load], or one of Python's. *)
Inductive failure : Type :=
| ConfigError
| TOMLDecodeError
| UnicodeDecodeError
| Builtin (e : exn).

Inductive outcome (A : Type) : Type :=
| Returned (a : A)
| Raised (e : failure).
Arguments Returned {A} a.
Arguments Raised {A} e.

(** The file at a path: [open] or the read fails with [OSError], the
    bytes are not UTF-8, the text is not TOML, or it parses. *)
Inductive source : Type :=
| Unreadable
| NotText
| Malformed
| Parsed (config : dict toml).

(** [v[k]] for a [str] key *)
Definition getitem (v : toml) (k : string) : result toml :=
  match v with
  | TTable t =>
      match get k t with
      | Some x => Ok x
      | None => Raise KeyError
      end
  | _ => Raise TypeError
  end.

(** What iterating over [v] yields: the elements of a list, the
    characters of a [str], the keys of a [dict]. *)
Definition iterate (v : toml) : result (list toml) :=
  match v with
  | TArray l => Ok l
  | TStr s => Ok (map (fun c => TStr (String c "")) (list_ascii_of_string s))
  | TTable t => Ok (map TStr (keys t))
  | TInt _ | TBool _ => Raise TypeError
  end.

Definition as_int (v : toml) : option Z :=
  match v with
  | TInt z => Some z
  | TBool b => Some (if b then 1 else 0)%Z
  | _ => None
  end.

(** The value [a] is bound to after [a += b]: a list is extended by
    whatever [b] yields, text takes text, numbers add up. *)
Definition iadd (a b : toml) : result toml :=
  match a with
  | TArray l => r <- iterate b ;; Ok (TArray (l ++ r))
  | TStr s =>
      match b with
      | TStr s' => Ok (TStr (s ++ s'))
      | _ => Raise TypeError
      end
  | TInt _ | TBool _ =>
      match as_int a, as_int b with
      | Some x, Some y => Ok (TInt (x + y))
      | _, _ => Raise TypeError
      end
  | TTable _ => Raise TypeError
  end.

(** [Path(v)]; the path is kept as the text it was made from. *)
Definition Path (v : toml) : result string :=
  match v with
  | TStr s => Ok s
  | _ => Raise TypeError
  end.

Definition default_config (home : string) : string :=
  joinpath home ".config/wall-select.toml".

Definition default_database (home : string) : string :=
  joinpath home ".local/share/wall-select.json".

Record Config : Type := mkConfig {
  database_path : string;
  wallpaper_directory : string;
  startpage_background : string;
  exclude : dict toml
}.

Definition GENERAL : string := "general".
Definition MOBILE : string := "mobile".
Definition STARTPAGE : string := "startpage".

(** One turn of the loop over the sections:
    [try: config[section]["exclude"]  except KeyError: []]. *)
Definition section_exclude (config : dict toml) (section : string)
  : result toml :=
  match (t <- getitem (TTable config) section ;; getitem t "exclude") with
  | Raise KeyError => Ok (TArray [])
  | r => r
  end.

(** [read] from the loop on.  The list that [+=] extends belongs to the
    section's own table, which is not looked at for its excludes again. *)
Definition read_parsed (home : string) (config : dict toml) : result Config :=
  g <- section_exclude config GENERAL ;;
  let excludes := set GENERAL g [] in
  s <- section_exclude config STARTPAGE ;;
  let excludes := set STARTPAGE s excludes in
  m <- section_exclude config MOBILE ;;
  let excludes := set MOBILE m excludes in
  s' <- iadd s g ;;
  let excludes := set STARTPAGE s' excludes in
  m' <- iadd m g ;;
  let excludes := set MOBILE m' excludes in
  wd <- (t <- getitem (TTable config) GENERAL ;;
         v <- getitem t "wallpaper_directory" ;; Path v) ;;
  bg <- (t <- getitem (TTable config) STARTPAGE ;;
         v <- getitem t "background" ;; Path v) ;;
  Ok (mkConfig (default_database home) wd bg excludes).

(** [read()], for the home directory [home] and the files [files]. *)
Definition read (home : string) (files : string -> source) : outcome Config :=
  match files (default_config home) with
  | Unreadable => Raised ConfigError
  | NotText => Raised UnicodeDecodeError
  | Malformed => Raised TOMLDecodeError
  | Parsed config =>
      match read_parsed home config with
      | Ok c => Returned c
      | Raise e => Raised (Builtin e)
      end
  end.

End Config.

(* ================================================================== *)
(** ** The command line *)
(* ================================================================== *)

(** [print_aligned] and [create_database] of [wall-select.py], over a
    console: the lines waiting on standard input, and what was written
    to standard output, each entry by the call that wrote it. *)
Module Cli.
Import Py OS Fs Catalog.

Inductive output : Type :=
| Printed (text : string)       (* [print(...)], the newline included *)
| Asked (prompt : string).      (* the prompt of [input(prompt)] *)

Record console : Type := mkConsole {
  stdin : list string;
  stdout : list output
}.

(** What can leave [create_database]: [EOFError] from [input], or an
    exception of the library. *)
Inductive failure : Type :=
| EOFError
| Library (e : exn).

Inductive outcome : Type :=
| Done
| Failed (e : failure).

Definition newline : string := String (ascii_of_nat 10) EmptyString.

(** [print(s)] *)
Definition print (s : string) (c : console) : console :=
  mkConsole (stdin c) (stdout c ++ [Printed (s ++ newline)%string])%list.

(** [input(prompt)]: the prompt is written, then a line is read; at the
    end of the input there is none. *)
Definition input (prompt : string) (c : console) : option string * console :=
  match stdin c with
  | [] => (None, mkConsole [] (stdout c ++ [Asked prompt])%list)
  | line :: rest => (Some line, mkConsole rest (stdout c ++ [Asked prompt])%list)
  end.

(** [max(keys, key=len)] from the first key on: a later key replaces the
    best one only when it is longer. *)
Fixpoint max_by_len (best : string) (l : list string) : string :=
  match l with
  | [] => best
  | k :: r =>
      if (String.length best <? String.length k)%nat then max_by_len k r
      else max_by_len best r
  end.

Fixpoint spaces (n : nat) : string :=
  match n with
  | 0 => ""
  | S n' => String " " (spaces n')
  end.

(** [f"{s:<{n}}"] *)
Definition ljust (n : nat) (s : string) : string :=
  s ++ spaces (n - String.length s).

(** The list [line] of [print_aligned]; the values are given as the text
    the f-string makes of them. *)
Definition aligned_lines (key_values : dict string) : result (list string) :=
  match keys key_values with
  | [] => Raise ValueError
  | k0 :: r =>
      let longest_key := String.length (max_by_len k0 r) + 1 in
      Ok (map (fun kv => ljust longest_key (fst kv ++ ":") ++ " " ++ snd kv)
              key_values)
  end.

Definition print_aligned (key_values : dict string) (c : console)
  : result unit * console :=
  match aligned_lines key_values with
  | Ok line => (Ok tt, print (join newline line) c)
  | Raise e => (Raise e, c)
  end.

(** [format_timestamp]; [strftime] is what the locale makes of ["%c"]. *)
Definition format_timestamp (strftime : Datetime.datetime -> string)
    (timestamp : option Datetime.datetime) : string :=
  match timestamp with
  | Some t => strftime t
  | None => "N/A"
  end.

(** [str(n)] for an [int] that is not negative *)
Definition str_nat (n : nat) : string :=
  DecimalString.NilZero.string_of_uint (Nat.to_uint n).

(** [s.lower()] on the letters A to Z, which is all that the comparison
    with the two words below depends on. *)
Definition lower_char (c : ascii) : ascii :=
  let n := nat_of_ascii c in
  if (65 <=? n)%nat && (n <=? 90)%nat then ascii_of_nat (n + 32) else c.

Fixpoint lower (s : string) : string :=
  match s with
  | EmptyString => EmptyString
  | String c r => String (lower_char c) (lower r)
  end.

(** [response.lower() in ("y", "yes")] *)
Definition agrees (response : string) : bool :=
  String.eqb (lower response) "y" || String.eqb (lower response) "yes".

Definition overwrite_prompt : string :=
  "Database file already exists. Overwrite it? [y/N]: ".

Section CreateDatabase.
Variable local : Z.
Variable dk : disk.
Variable strftime : Datetime.datetime -> string.
Variable database_path : string.
Variable base : string.

(** The dictionary handed to [print_aligned] after a creation. *)
Definition created_report (db_info : DatabaseInfo) : dict string :=
  [("Database Location", database_path);
   ("Wallpaper Directory", info_wallpaper_directory db_info);
   ("Total Wallpapers", str_nat (info_total_wallpapers db_info));
   ("Created", format_timestamp strftime (Some (info_created_at db_info)))].

(** The [for] loop of [create_database], one element of [runs] for each
    turn: the faults and the clock that turn's [create] meets. *)
Fixpoint attempts (runs : list (faults * Datetime.datetime)) (force : bool)
    (w : world) (c : console) : outcome * (world * console) :=
  match runs with
  | [] => (Done, (w, c))
  | (f, now) :: rest =>
      match create local f dk now base force w with
      | (Ok db_info, w') =>
          let c := print "Database created!" c in
          match print_aligned (created_report db_info) c with
          | (Ok _, c') => (Done, (w', c'))
          | (Raise e, c') => (Failed (Library e), (w', c'))
          end
      | (Raise DatabaseExistsError, w') =>
          match input overwrite_prompt c with
          | (None, c') => (Failed EOFError, (w', c'))
          | (Some response, c') =>
              if agrees response then attempts rest true w' c'
              else (Done, (w', print "Cancelling database creation" c'))
          end
      | (Raise e, w') => (Failed (Library e), (w', c))
      end
  end.

(** [create_database(config, force)] *)
Definition create_database (first second : faults * Datetime.datetime)
    (force : bool) (w : world) (c : console) : outcome * (world * console) :=
  attempts [first; second] force w c.

End CreateDatabase.

End Cli.

(* ================================================================== *)
(** ** Further vocabulary *)
(* ================================================================== *)

Module Notions.
Import Py Codec OS Session Fs Catalog Spec.
Local Open Scope list_scope.

(** The events that change what the file holds. *)
Definition is_write (e : event) : bool :=
  match e with
  | EvTruncate | EvWrite _ => true
  | _ => false
  end.

(** A world without a database file, and a body that does nothing. *)
Definition no_file : world := mkWorld None None false [].

Definition idle_body (vs : dict pyval) : result unit * dict pyval := (Ok tt, vs).

(** A body that gives up. *)
Definition failing_body (vs : dict pyval) : result unit * dict pyval :=
  (Raise StartpageSetError, vs).

(** The part of the entries a selection has no business with: the keys,
    in order, each with its two mobile flags. *)
Definition mobile_flags (ws : dict Wallpaper) : list (string * (bool * bool)) :=
  map (fun kv => (fst kv, (mobile_suitable (snd kv), mobile_used (snd kv)))) ws.

(** [ex] occurs in [k]. *)
Definition substring (ex k : string) : Prop :=
  exists pre post, k = (pre ++ ex ++ post)%string.

(** What no selection changes of the record. *)
Definition kept (st st' : search) : Prop :=
  mobile_flags (wallpapers (db st')) = mobile_flags (wallpapers (db st))
  /\ base_directory (db st') = base_directory (db st)
  /\ created_at (db st') = created_at (db st)
  /\ updated_at (db st') = updated_at (db st).

(** *** Catalogues that can be stored *)

Definition valid_opt (o : option Datetime.datetime) : bool :=
  match o with
  | Some t => Datetime.valid t
  | None => true
  end.

(** A catalogue as the program builds it: distinct keys, none of them the
    reserved [_TYPE_KEY], and timestamps the [datetime] constructor
    accepts. *)
Definition data_ok (d : WallpaperData) : bool :=
  nodupb (keys (wallpapers d))
  && negb (inb _TYPE_KEY (keys (wallpapers d)))
  && valid_opt (updated_at d) && valid_opt (created_at d)
  && valid_opt (target_updated_at (startpage d)).




(** The catalogue a new database holds when it is first opened: the
    listed files with default entries, nothing else set, and [created_at]
    moved to the local zone of the reader. *)
Definition created_data (local : Z) (dk : disk) (now : Datetime.datetime)
    (base : string) : WallpaperData :=
  mkData (Some base)
         (fromkeys (_list_wallpapers dk base) Wallpaper_default)
         None (Some (Datetime.astimezone local now)) false
         (mkTarget None None).

(** A body that only appends to the log. *)
Definition logging_body (w : world) : result unit * world :=
  (Ok tt, emit EvSeek w).

(** *** Configurations *)

(** The exclude list a section of the file gives, when it gives one. *)
Definition listed (config : dict Config.toml) (section : string)
  : list Config.toml :=
  match get section config with
  | Some (Config.TTable t) =>
      match get "exclude" t with
      | Some (Config.TArray l) => l
      | _ => []
      end
  | _ => []
  end.

(** The text at [config[section][key]]. *)
Definition text_at (config : dict Config.toml) (section key : string)
  : option string :=
  match get section config with
  | Some (Config.TTable t) =>
      match get key t with
      | Some (Config.TStr s) => Some s
      | _ => None
      end
  | _ => None
  end.

(** A section is fit for the loop over the excludes when it is absent, or
    a table whose [exclude] is absent or an array. *)
Definition section_ok (config : dict Config.toml) (section : string) : bool :=
  match get section config with
  | None => true
  | Some (Config.TTable t) =>
      match get "exclude" t with
      | None | Some (Config.TArray _) => true
      | Some _ => false
      end
  | Some _ => false
  end.

Definition sections_ok (config : dict Config.toml) : bool :=
  section_ok config Config.GENERAL && section_ok config Config.STARTPAGE
  && section_ok config Config.MOBILE.

(** The elements of an array when every one is text. *)
Fixpoint strings (l : list Config.toml) : option (list string) :=
  match l with
  | [] => Some []
  | Config.TStr s :: r =>
      match strings r with
      | Some ss => Some (s :: ss)
      | None => None
      end
  | _ :: _ => None
  end.

(** [config.exclude["startpage"]] as [set_startpage_wallpaper] hands it
    to [set_startpage], when it is a list of text. *)
Definition startpage_exclusions (c : Config.Config) : option (list string) :=
  match get Config.STARTPAGE (Config.exclude c) with
  | Some (Config.TArray l) => strings l
  | _ => None
  end.

Definition example_home : string := "/home/u".

Definition example_config : dict Config.toml :=
  [("general",
    Config.TTable [("wallpaper_directory", Config.TStr "/home/u/walls");
                   ("exclude", Config.TArray [Config.TStr "1"])]);
   ("startpage",
    Config.TTable [("background", Config.TStr "/home/u/.bg")])].

Definition example_files (p : string) : Config.source :=
  if String.eqb p "/home/u/.config/wall-select.toml"
  then Config.Parsed example_config else Config.Unreadable.

Definition example_read : Config.Config :=
  Config.mkConfig "/home/u/.local/share/wall-select.json" "/home/u/walls"
    "/home/u/.bg"
    [("general", Config.TArray [Config.TStr "1"]);
     ("startpage", Config.TArray [Config.TStr "1"]);
     ("mobile", Config.TArray [Config.TStr "1"])].

(** The elements of a value that is an array. *)
Definition elements (v : Config.toml) : list Config.toml :=
  match v with
  | Config.TArray l => l
  | _ => []
  end.

(** *** The console *)

(** How often the program has asked. *)
Definition prompts (c : Cli.console) : nat :=
  List.length
    (filter (fun o => match o with Cli.Asked _ => true | Cli.Printed _ => false end)
            (Cli.stdout c)).

(** A database file that exists already, and a console with one answer. *)
Definition existing_world : world := mkWorld (Some Malformed) None false [].

Definition answering (line : string) : Cli.console := Cli.mkConsole [line] [].

Definition example_strftime (t : Datetime.datetime) : string :=
  Datetime.isoformat t.


End Notions.

(* ================================================================== *)
(** * Properties *)
(* ================================================================== *)

Import Py Codec OS Session Fs Catalog Spec.
Open Scope list_scope.
Open Scope nat_scope.

(** ** Opening a session *)

Lemma file_mode_recognized (mode : string) :
  recognized mode \/ file_mode mode = Raise KeyError.
Proof.
  unfold file_mode, recognized.
  destruct (String.eqb_spec mode "r"); [auto|].
  destruct (String.eqb_spec mode "w"); [auto|].
  destruct (String.eqb_spec mode "n"); [auto|].
  destruct (String.eqb_spec mode "c"); auto.
Qed.



(** ** Leaving a session *)

(** C3 (as stated, refuted).  A session opened with mode ["w"] whose body
    ends with an exception is not saved: the file keeps the document it
    had, and no write appears in the log. *)
Lemma exit_on_exception_counterexample :
  _writeback dirty_session = true
  /\ _mode dirty_session = "w"
  /\ file (snd (__exit__ no_faults (Some StartpageSetError)
                  dirty_session dirty_world))
     = Some (Text (JObj []))
  /\ log (snd (__exit__ no_faults (Some StartpageSetError)
                 dirty_session dirty_world))
     = log dirty_world ++ [EvUnlock; EvClose]
  /\ ~ teardown_runs no_faults (Some StartpageSetError)
         dirty_session dirty_world.
Proof.
  refine (conj eq_refl (conj eq_refl (conj eq_refl (conj eq_refl _)))).
  intros (doc & Hd & Hf & _).
  vm_compute in Hd. vm_compute in Hf.
  injection Hd as <-. discriminate Hf.
Qed.

(** C3 (amended).  For a session in a writable mode that holds its lock on
    an open file: when the body ends normally and the record can be
    written, [__exit__] rewinds, truncates and writes the record over the
    file, then tries to unlock (a failure becomes a warning), then closes
    the file; when the body ends with an exception, nothing is written,
    the file keeps its content, and the unlock and the close still
    happen. *)
Theorem exit_teardown (f : faults) (exc : option exn)
    (self : WallpaperDatabase) (w : world) :
  _writeback self = true ->
  FileLock.locked (_lock self) = true ->
  fd_open w = true ->
  match exc with
  | None =>
      forall doc, dump (VDict (public_attrs self)) = Ok doc ->
                  write_fails f = false ->
        __exit__ f None self w
        = (Ok tt, mkWorld (Some (Text doc)) None false
                    (log w ++ [EvSeek; EvTruncate; EvWrite doc]
                       ++ unlock_events f ++ [EvClose]))
  | Some e =>
      __exit__ f (Some e) self w
      = (Ok tt, mkWorld (file w) None false
                  (log w ++ unlock_events f ++ [EvClose]))
  end.
Proof.
  intros Hwb Hl Hfd. destruct exc as [e|].
  - unfold __exit__, close, FileLock.release, unlock_events, emit.
    unfold FileLock.locked in *. rewrite Hl.
    destruct (unlock_fails f); simpl; rewrite Hfd; simpl;
      rewrite <- ?app_assoc; reflexivity.
  - intros doc Hd Hw.
    unfold __exit__, save. rewrite Hwb.
    unfold public_attrs in Hd. rewrite Hd, Hw.
    unfold close, FileLock.release, unlock_events, emit.
    unfold FileLock.locked in *. rewrite Hl.
    destruct (unlock_fails f); simpl; rewrite Hfd; simpl;
      rewrite <- ?app_assoc; reflexivity.
Qed.

Lemma exit_teardown_witness :
  __exit__ no_faults (Some StartpageSetError) dirty_session dirty_world
  = (Ok tt, mkWorld (Some (Text (JObj []))) None false
              [EvOpen "r+"; EvFlock 2; EvUnlock; EvClose]).
Proof.
  exact (exit_teardown no_faults (Some StartpageSetError)
           dirty_session dirty_world eq_refl eq_refl eq_refl).
Defined.

(** ** The search loop *)

Lemma choice_In {A} (r : nat) (l : list A) :
  l <> [] -> exists x, choice r l = Some x /\ In x l.
Proof.
  intros Hl. unfold choice.
  assert (Hlt : r mod List.length l < List.length l).
  { apply Nat.mod_upper_bound. destruct l; [congruence | simpl; lia]. }
  destruct (nth_error l (r mod List.length l)) eqn:E.
  - exists a. split; [reflexivity | eapply nth_error_In; eassumption].
  - apply nth_error_None in E. lia.
Qed.

Lemma remove_first_incl k l : incl (remove_first k l) l.
Proof.
  induction l as [|x l IH]; simpl; [apply incl_refl|].
  destruct (String.eqb k x).
  - apply incl_tl, incl_refl.
  - intros y [->|Hy]; [left; reflexivity | right; apply IH, Hy].
Qed.

Lemma remove_first_length k l :
  In k l -> S (List.length (remove_first k l)) = List.length l.
Proof.
  induction l as [|x l IH]; simpl; [tauto|].
  intros H. destruct (String.eqb_spec k x); [reflexivity|].
  destruct H as [->|H]; [congruence|]. simpl. rewrite IH; auto.
Qed.

Lemma remove_first_NoDup k l : NoDup l -> NoDup (remove_first k l).
Proof.
  induction 1 as [|x l Hx Hl IH]; simpl; [constructor|].
  destruct (String.eqb k x); [assumption|].
  constructor; [|assumption].
  intros Hin. apply Hx. eapply remove_first_incl; eassumption.
Qed.

Lemma remove_first_other k l x :
  In x l -> x <> k -> In x (remove_first k l).
Proof.
  induction l as [|y l IH]; simpl; [tauto|].
  intros H Hne. destruct (String.eqb_spec k y).
  - destruct H as [->|H]; [congruence | assumption].
  - destruct H as [->|H]; [left; reflexivity | right; auto].
Qed.

Lemma remove_first_gone k l : NoDup l -> ~ In k (remove_first k l).
Proof.
  induction 1 as [|x l Hx Hl IH]; simpl; [tauto|].
  destruct (String.eqb_spec k x); [subst; assumption|].
  intros [->|H]; [congruence | auto].
Qed.

Lemma searched_refl dk dir st : searched dk dir st st.
Proof.
  unfold searched. repeat split; auto using incl_refl; try lia.
  intros x Hx Hn. contradiction.
Qed.

(** One miss followed by the rest of the loop. *)
Lemma searched_step dk dir st k rest st' :
  In k (walls_unused st) ->
  is_file dk dir k = false ->
  searched dk dir
    (mkSearch
       (mkData (base_directory (db st)) (wallpapers (db st))
               (updated_at (db st)) (created_at (db st))
               true (startpage (db st)))
       (remove_first k (walls_unused st))
       (background st) rest (S (warnings st))) st' ->
  searched dk dir st st'.
Proof.
  intros Hk Hf (Hi & Hnd & Hs & Hw & Hle & Hu & Hu' & Hb). simpl in *.
  pose proof (remove_first_length k _ Hk) as Hlen.
  unfold searched. repeat split.
  - intros x Hx. eapply remove_first_incl. apply Hi, Hx.
  - intros H. apply Hnd, remove_first_NoDup, H.
  - intros x Hx Hn. destruct (string_dec x k) as [->|Hne]; [assumption|].
    apply Hs; [apply remove_first_other|]; assumption.
  - lia.
  - lia.
  - intros E. exfalso. lia.
  - intros _. destruct (Nat.eq_dec (warnings st') (S (warnings st))) as [E|E].
    + rewrite (Hu E). reflexivity.
    + apply Hu'. lia.
  - assumption.
Qed.

(** What one call of [_set_startpage] does, [n] being at most the length
    of [walls_unused]: it never raises; it either hits an entry of the
    list whose file exists, or misses having dropped [n] entries. *)
Lemma _set_startpage_spec dk now dir n : forall st,
  base_directory (db st) = Some dir ->
  n <= List.length (walls_unused st) ->
  exists r st',
    _set_startpage dk now n st = (Ok r, st')
    /\ searched dk dir st st'
    /\ if r
       then exists k, In k (walls_unused st') /\ is_file dk dir k = true
                      /\ hit now dir k st st'
       else miss st st'
            /\ List.length (walls_unused st') + n = List.length (walls_unused st).
Proof.
  induction n as [|n IH]; intros st Hb Hn.
  - exists false, st. simpl.
    split; [reflexivity|]. split; [apply searched_refl|].
    split; [unfold miss; auto | lia].
  - simpl. destruct (next_draw (draws st)) as [r rest].
    destruct (choice_In r (walls_unused st)) as (k & Hc & Hk).
    { destruct (walls_unused st); simpl in Hn; [lia | congruence]. }
    rewrite Hc.
    match goal with
    | |- context [_set_startpage dk now n ?s] => set (st1 := s)
    end.
    rewrite Hb. destruct (is_file dk dir k) eqn:Hf.
    + exists true. eexists. split; [reflexivity|]. split.
      * unfold searched. simpl. repeat split; auto using incl_refl; try lia.
        intros x Hx Hnx. contradiction.
      * exists k. unfold hit. simpl. auto.
    + pose proof (remove_first_length k _ Hk) as Hlen.
      destruct (IH st1) as (r' & st' & He & Hs & Hr);
        [exact Hb | subst st1; simpl; lia |].
      exists r', st'. split; [exact He|]. split.
      * eapply searched_step; eassumption.
      * destruct r'.
        -- destruct Hr as (k' & Hk' & Hf' & Hh). exists k'. auto.
        -- destruct Hr as (Hm & Hl). subst st1. simpl in *. split; [exact Hm | lia].
Qed.

Lemma searched_flagged dk dir st st' : searched dk dir st st' -> flagged st st'.
Proof. intros (_ & _ & _ & _ & H1 & H2 & H3 & H4). repeat split; assumption. Qed.

Lemma flagged_trans a b c : flagged a b -> flagged b c -> flagged a c.
Proof.
  intros (L1 & E1 & T1 & B1) (L2 & E2 & T2 & B2). repeat split.
  - lia.
  - intros E. rewrite E2, E1; auto; lia.
  - intros Hlt. destruct (Nat.eq_dec (warnings c) (warnings b)) as [E|E].
    + rewrite (E2 E). apply T1. lia.
    + apply T2. lia.
  - congruence.
Qed.

Lemma filter_nil_iff {A} (p : A -> bool) l :
  filter p l = [] <-> forall x, In x l -> p x = false.
Proof.
  induction l as [|a l IH]; simpl; [tauto|].
  destruct (p a) eqn:E; split.
  - discriminate.
  - intros H. specialize (H a (or_introl eq_refl)). congruence.
  - intros H x [<-|Hx]; [assumption | apply IH; assumption].
  - intros H. apply IH. auto.
Qed.

Lemma length_zero_nil {A} (l : list A) : List.length l = 0 -> l = [].
Proof. destruct l; [reflexivity | discriminate]. Qed.

(** One call of the body of [set_startpage]: with an empty pool it raises
    [StartpageSetError]; otherwise it returns [None] having installed an
    entry [k] of the pool, which either was unused and is now marked, or
    was picked after every flag had been reset because the pool had no
    unused entry left. *)
Lemma set_startpage_body_spec dk now dir excl st :
  base_directory (db st) = Some dir ->
  exists r st',
    set_startpage_body dk now excl st = (r, st')
    /\ flagged st st'
    /\ ((r = Raise StartpageSetError
         /\ pool dk dir excl (wallpapers (db st)) = []
         /\ background st' = background st)
        \/ (r = Ok VNone
            /\ exists k,
                In k (pool dk dir excl (wallpapers (db st)))
                /\ background st' = Some (joinpath dir k)
                /\ startpage (db st') = mkTarget (Some now) (Some (joinpath dir k))
                /\ ((unused_in (wallpapers (db st)) k = true
                     /\ wallpapers (db st')
                        = mark k true (wallpapers (db st)))
                    \/ (unused_pool dk dir excl (wallpapers (db st)) = []
                        /\ wallpapers (db st')
                           = mark k true (reset_used (wallpapers (db st))))))).
Proof.
  intros Hb. unfold set_startpage_body.
  set (inc := filter (included excl) (keys (wallpapers (db st)))).
  set (un := filter _ inc).
  assert (Hpool : forall k, In k (pool dk dir excl (wallpapers (db st))) <->
                            In k inc /\ is_file dk dir k = true).
  { intros k. unfold pool, inc, eligible. rewrite !filter_In.
    rewrite andb_true_iff. tauto. }
  destruct (List.length inc =? 0) eqn:E0.
  - exists (Raise StartpageSetError), st. split; [reflexivity|].
    split; [repeat split; auto; lia|]. left. repeat split.
    apply Nat.eqb_eq, length_zero_nil in E0.
    apply filter_nil_iff. intros k Hk. unfold eligible.
    destruct (included excl k) eqn:Ei; [|reflexivity].
    assert (In k inc) by (apply filter_In; auto). rewrite E0 in H. destruct H.
  - set (s0 := mkSearch (db st) un (background st) (draws st) (warnings st)).
    destruct (_set_startpage_spec dk now dir (List.length un) s0 Hb (le_n _))
      as (r1 & st1 & He1 & Hs1 & Hr1).
    cbn [rounds]. change (walls_unused s0) with un at 1. rewrite He1.
    pose proof (searched_flagged _ _ _ _ Hs1) as Hf1.
    destruct r1.
    + (* first round hits *)
      destruct Hr1 as (k & Hk & Hfile & Hw & Hbg & Hsp).
      exists (Ok VNone), st1. split; [reflexivity|]. split; [exact Hf1|].
      right. split; [reflexivity|]. exists k.
      destruct Hs1 as (Hincl & _). apply Hincl in Hk. simpl in Hk.
      unfold un in Hk. apply filter_In in Hk. destruct Hk as [Hki Hku].
      split; [apply Hpool; auto|]. split; [exact Hbg|]. split; [exact Hsp|].
      left. split; [exact Hku | exact Hw].
    + (* first round misses: every unused entry is stale *)
      destruct Hr1 as ((Hw1 & Hbg1 & Hsp1) & Hl1). simpl in Hl1.
      assert (Hnil : walls_unused st1 = []) by (apply length_zero_nil; lia).
      rewrite Hnil. cbn [List.length Nat.eqb].
      assert (Hstale : forall x, In x un -> is_file dk dir x = false).
      { intros x Hx. destruct Hs1 as (_ & _ & Hst & _). apply Hst; [exact Hx|].
        rewrite Hnil. intros []. }
      assert (Hup : unused_pool dk dir excl (wallpapers (db st)) = []).
      { apply filter_nil_iff. intros k Hk. apply Hpool in Hk.
        destruct Hk as [Hki Hkf].
        destruct (unused_in (wallpapers (db st)) k) eqn:Eu; [|reflexivity].
        assert (In k un) by (apply filter_In; auto).
        rewrite (Hstale k H) in Hkf. discriminate. }
      set (s2 := mkSearch _ inc _ _ _).
      assert (Hb2 : base_directory (db s2) = Some dir).
      { simpl. destruct Hf1 as (_ & _ & _ & Hbb). rewrite Hbb. exact Hb. }
      destruct (_set_startpage_spec dk now dir (List.length inc) s2 Hb2 (le_n _))
        as (r2 & st2 & He2 & Hs2 & Hr2).
      change (walls_unused s2) with inc at 1. rewrite He2.
      pose proof (searched_flagged _ _ _ _ Hs2) as Hf2.
      assert (Hf02 : flagged st st2).
      { eapply flagged_trans; [|exact Hf2].
        destruct Hf1 as (A & B & C & D). repeat split; simpl; auto. }
      destruct r2.
      * destruct Hr2 as (k & Hk & Hfile & Hw & Hbg & Hsp).
        exists (Ok VNone), st2. split; [reflexivity|]. split; [exact Hf02|].
        right. split; [reflexivity|]. exists k.
        destruct Hs2 as (Hincl & _). apply Hincl in Hk. simpl in Hk.
        split; [apply Hpool; auto|]. split; [exact Hbg|]. split; [exact Hsp|].
        right. split; [exact Hup|]. rewrite Hw. simpl. rewrite Hw1. reflexivity.
      * destruct Hr2 as ((Hw2 & Hbg2 & Hsp2) & Hl2). simpl in Hl2.
        assert (Hnil2 : walls_unused st2 = []) by (apply length_zero_nil; lia).
        assert (Hstale2 : forall x, In x inc -> is_file dk dir x = false).
        { intros x Hx. destruct Hs2 as (_ & _ & Hst & _). apply Hst; [exact Hx|].
          rewrite Hnil2. intros []. }
        rewrite Hnil2. cbn [List.length Nat.eqb].
        eexists (Raise StartpageSetError), _. split; [reflexivity|].
        split.
        { destruct Hf02 as (A & B & C & D). repeat split; simpl; auto. }
        left. split; [reflexivity|]. split.
        -- apply filter_nil_iff. intros k Hk. unfold eligible.
           destruct (included excl k) eqn:Ei; [|reflexivity].
           simpl. apply Hstale2. apply filter_In. auto.
        -- simpl. rewrite Hbg2. simpl. exact Hbg1.
Qed.

(** C7.  During the selection an entry whose file is absent is never
    installed: the startpage background either stays what it was or
    becomes the path of an entry whose file exists.  In each round, an
    entry drawn without a file leaves [walls_unused] for the rest of the
    round and [should_update] is set; only such entries leave the list,
    one per warning; and whenever a warning was issued, in the round or in
    the whole selection, [should_update] is true afterwards. *)
Theorem stale_entries_never_installed (dk : disk) (now : Datetime.datetime)
    (dir : string) :
  (forall n st r rest k,
      next_draw (draws st) = (r, rest) ->
      choice r (walls_unused st) = Some k ->
      base_directory (db st) = Some dir ->
      is_file dk dir k = false ->
      _set_startpage dk now (S n) st
      = _set_startpage dk now n
          (mkSearch
             (mkData (base_directory (db st)) (wallpapers (db st))
                     (updated_at (db st)) (created_at (db st))
                     true (startpage (db st)))
             (remove_first k (walls_unused st))
             (background st) rest (S (warnings st))))
  /\ (forall n st,
      base_directory (db st) = Some dir ->
      n <= List.length (walls_unused st) ->
      NoDup (walls_unused st) ->
      let st' := snd (_set_startpage dk now n st) in
      (forall x, In x (walls_unused st) -> ~ In x (walls_unused st') ->
                 is_file dk dir x = false)
      /\ NoDup (walls_unused st')
      /\ warnings st' + List.length (walls_unused st')
         = warnings st + List.length (walls_unused st)
      /\ (warnings st < warnings st' -> should_update (db st') = true)
      /\ (background st' = background st
          \/ exists k, In k (walls_unused st) /\ is_file dk dir k = true
                       /\ background st' = Some (joinpath dir k)))
  /\ (forall exclusions st,
      base_directory (db st) = Some dir ->
      let st' := snd (set_startpage_body dk now exclusions st) in
      (warnings st < warnings st' -> should_update (db st') = true)
      /\ (background st' = background st
          \/ exists k, In k (keys (wallpapers (db st)))
                       /\ is_file dk dir k = true
                       /\ background st' = Some (joinpath dir k))).
Proof.
  split; [|split].
  - intros n st r rest k Hd Hc Hb Hf. simpl. rewrite Hd, Hc, Hb, Hf.
    rewrite <- Hb. reflexivity.
  - intros n st Hb Hn Hnd st'.
    destruct (_set_startpage_spec dk now dir n st Hb Hn)
      as (r & s' & He & Hs & Hr).
    subst st'. rewrite He. simpl.
    destruct Hs as (Hincl & Hnd' & Hst & Hw & Hle & Hu & Hu' & Hbb).
    repeat split; auto.
    destruct r.
    + destruct Hr as (k & Hk & Hf & _ & Hbg & _). right. exists k. auto.
    + destruct Hr as ((_ & Hbg & _) & _). left. exact Hbg.
  - intros excl st Hb st'.
    destruct (set_startpage_body_spec dk now dir excl st Hb)
      as (r & s' & He & Hf & Hr).
    subst st'. rewrite He. simpl. split.
    + destruct Hf as (_ & _ & Hu & _). exact Hu.
    + destruct Hr as [(_ & _ & Hbg) | (_ & k & Hk & Hbg & _)].
      * left. exact Hbg.
      * right. exists k. unfold pool in Hk. apply filter_In in Hk.
        destruct Hk as [Hk He']. unfold eligible in He'.
        apply andb_true_iff in He'. tauto.
Qed.

Lemma stale_entries_never_installed_witness :
  should_update (db (snd (set_startpage_body example_disk example_now []
                            example_search))) = true.
Proof.
  apply (proj1 (proj2 (proj2 (stale_entries_never_installed
                                example_disk example_now example_dir))
                 [] example_search eq_refl)).
  vm_compute. apply le_n.
Defined.

(** ** What [set_startpage] hands back *)

Lemma _set_startpage_hit_current dk now n : forall st st',
  _set_startpage dk now n st = (Ok true, st') ->
  exists p, background st' = Some p /\ current (startpage (db st')) = Some p.
Proof.
  induction n as [|n IH]; intros st st'; simpl; [discriminate|].
  destruct (next_draw (draws st)) as [r rest].
  destruct (choice r (walls_unused st)); [|discriminate].
  destruct (base_directory (db st)); [|discriminate].
  destruct (is_file dk s0 s).
  - intros [= <-]. simpl. eauto.
  - apply IH.
Qed.

Lemma set_startpage_body_ok dk now excl st v st' :
  set_startpage_body dk now excl st = (Ok v, st') ->
  v = VNone
  /\ exists p, background st' = Some p /\ current (startpage (db st')) = Some p.
Proof.
  unfold set_startpage_body.
  destruct (List.length _ =? 0); [discriminate|].
  cbn [rounds].
  destruct (_set_startpage _ _ _ _) as [[[]|] s1] eqn:E1.
  - intros [= <- <-]. split; [reflexivity|].
    eapply _set_startpage_hit_current; eassumption.
  - destruct (List.length (walls_unused s1) =? 0);
      match goal with
      | |- context [_set_startpage ?a ?b ?c ?d] =>
          destruct (_set_startpage a b c d) as [[[]|] s2] eqn:E2
      end;
      try (intros [= <- <-]; split; [reflexivity|];
           eapply _set_startpage_hit_current; eassumption);
      try discriminate;
      destruct (List.length (walls_unused s2) =? 0); cbn; discriminate.
  - discriminate.
Qed.

Lemma dump_wallpapers (ws : dict Wallpaper) :
  mapM (fun kv => v <- dump (snd kv) ;; Ok (fst kv, v))
       (map (fun kv => (fst kv, py_wallpaper (snd kv))) ws)
  = Ok (map (fun kv => (fst kv, json_wallpaper (snd kv))) ws).
Proof.
  induction ws as [|[k v] ws IH]; [reflexivity|].
  cbn [map mapM] in *. rewrite IH. reflexivity.
Qed.

(** [save] can always write a catalogue, and the document it writes is
    [json_of_data]. *)
Lemma dump_to_vars (d : WallpaperData) :
  dump (VDict (to_vars d)) = Ok (json_of_data d).
Proof.
  unfold to_vars, json_of_data.
  cbn [dump mapM fst snd Py.bind].
  change (dump (VDict ?x)) with
    (d' <- mapM (fun kv => v <- dump (snd kv) ;; Ok (fst kv, v)) x ;; Ok (JObj d')).
  destruct d as [b ws u c s [tu tc]]; cbn [base_directory wallpapers updated_at
    created_at should_update startpage].
  destruct b, u, c, tu, tc; cbn; rewrite dump_wallpapers; reflexivity.
Qed.

Lemma _open_ok local f mode w self w1 :
  _open local f mode w = (Ok self, w1) ->
  _mode self = mode /\ _writeback self = false
  /\ FileLock.locked (_lock self) = true /\ fd_open w1 = true
  /\ (mode = "r" \/ mode = "w" -> file w1 = file w).
Proof.
  unfold _open, path_open, FileLock.acquire.
  destruct (file_mode_recognized mode) as [Hr | Hk];
    [| rewrite Hk; simpl; discriminate].
  destruct Hr as [-> | [-> | [-> | ->]]]; simpl;
    destruct (open_fails f); simpl; try discriminate;
    destruct (file w) as [c|]; simpl; try discriminate;
    destruct (flock_fails f); simpl; try discriminate;
    unfold json_load; simpl;
    repeat match goal with
           | |- context [match ?x with _ => _ end] =>
               destruct x; simpl; try discriminate
           end;
    intros [= <- <-]; simpl; repeat split; auto;
    intros [H|H]; discriminate H.
Qed.

(** C10.  Whenever [set_startpage] succeeds it returns [None]; the path
    of the chosen wallpaper is what the startpage background now links to
    and what the document written to the database file records as
    [startpage.current]. *)
Theorem set_startpage_returns_None (local : Z) (f : faults) (dk : disk)
    (now : Datetime.datetime) (exclusions : list string) (bg : option string)
    (seed : list nat) (w : world) (v : pyval) (w' : world) (bg' : option string) :
  set_startpage local f dk now exclusions bg seed w = (Ok v, (w', bg')) ->
  v = VNone
  /\ exists p doc,
       bg' = Some p
       /\ file w' = Some (Text doc)
       /\ startpage_current doc = Some p.
Proof.
  unfold set_startpage.
  destruct (_open local f "w" w) as [[self|e] w1] eqn:Eo; [|discriminate].
  destruct (_open_ok _ _ _ _ _ _ Eo) as (Hm & Hwb & Hl & Hfd & _).
  destruct (of_vars (vars (__enter__ self))) as [d|]; [|discriminate].
  destruct (set_startpage_body dk now exclusions (mkSearch d [] bg seed 0))
    as [[a|e] st] eqn:Eb.
  - destruct (set_startpage_body_ok _ _ _ _ _ _ Eb) as (-> & p & Hbg & Hcur).
    unfold __enter__. rewrite Hm. simpl.
    unfold __exit__, save. cbn [_writeback vars].
    change (filter _ (to_vars (db st))) with (to_vars (db st)).
    rewrite dump_to_vars.
    destruct (write_fails f); [discriminate|].
    intros [= <- <- <-]. split; [reflexivity|].
    exists p, (json_of_data (db st)). split; [exact Hbg|]. split.
    + unfold close. cbn [_lock]. rewrite Hl.
      destruct (FileLock.release f (_lock self) _) as [[l|e] wr] eqn:Er;
        unfold FileLock.release in Er; unfold FileLock.locked in Hl;
        rewrite Hl in Er; destruct (unlock_fails f); inversion Er; subst;
        cbn; rewrite Hfd; reflexivity.
    + unfold startpage_current, json_of_data, json_target. cbn.
      destruct (startpage (db st)) as [tu tc]. simpl in Hcur. subst tc.
      reflexivity.
  - destruct (__exit__ f (Some e) _ w1) as [[|] ?]; discriminate.
Qed.

Lemma example_selection_run :
  set_startpage 0 no_faults example_disk example_now [] None [1; 0]
                example_world
  = example_selection.
Proof. vm_compute. reflexivity. Qed.

Lemma set_startpage_returns_None_witness :
  exists p doc,
    snd (snd example_selection) = Some p
    /\ file (fst (snd example_selection)) = Some (Text doc)
    /\ startpage_current doc = Some p.
Proof.
  exact (proj2 (set_startpage_returns_None 0 no_faults example_disk example_now
                  [] None [1; 0] example_world VNone
                  (fst (snd example_selection)) (snd (snd example_selection))
                  example_selection_run)).
Defined.

(** ** Fairness of the selection *)










(** ** Dictionaries *)

Lemma inb_In k l : inb k l = true <-> In k l.
Proof.
  unfold inb. rewrite existsb_exists. split.
  - intros (x & Hx & E). apply String.eqb_eq in E. subst. exact Hx.
  - intros H. exists k. split; [exact H | apply String.eqb_refl].
Qed.

Lemma inb_false k l : inb k l = false <-> ~ In k l.
Proof.
  rewrite <- inb_In. destruct (inb k l); split; congruence.
Qed.

Lemma In_difference k a b : In k (difference a b) <-> In k a /\ ~ In k b.
Proof.
  unfold difference. rewrite filter_In, negb_true_iff, inb_false. tauto.
Qed.

Lemma In_to_set k l : In k (to_set l) <-> In k l.
Proof. apply nodup_In. Qed.

Section DictFacts.
Context {V : Type}.
Implicit Types (d : dict V) (k : string) (v : V).

Lemma keys_set k v d x : In x (keys (set k v d)) <-> x = k \/ In x (keys d).
Proof.
  induction d as [|[k' v'] d IH]; simpl.
  - intuition.
  - destruct (String.eqb_spec k k') as [->|Hne]; simpl.
    + intuition.
    + rewrite IH. intuition.
Qed.


Lemma NoDup_keys_set k v d : NoDup (keys d) -> NoDup (keys (set k v d)).
Proof.
  induction d as [|[k' v'] d IH]; simpl; intros H.
  - constructor; [intros [] | constructor].
  - inversion H as [|? ? Hn Hd]; subst.
    destruct (String.eqb_spec k k') as [->|Hne]; simpl.
    + constructor; assumption.
    + constructor; [|apply IH, Hd].
      intros Hin. apply keys_set in Hin. destruct Hin as [->|Hin]; auto.
Qed.

Lemma set_absent k v d : ~ In k (keys d) -> set k v d = d ++ [(k, v)].
Proof.
  induction d as [|[k' v'] d IH]; simpl; intros H; [reflexivity|].
  destruct (String.eqb_spec k k') as [->|Hne]; [tauto|].
  rewrite IH; tauto.
Qed.

Lemma keys_update (a b : dict V) x :
  In x (keys (update a b)) <-> In x (keys a) \/ In x (keys b).
Proof.
  unfold update. revert a. induction b as [|[k v] b IH]; intros a; simpl.
  - tauto.
  - rewrite IH, keys_set. intuition.
Qed.

Lemma NoDup_keys_update (a b : dict V) : NoDup (keys a) -> NoDup (keys (update a b)).
Proof.
  unfold update. revert a. induction b as [|[k v] b IH]; intros a H; simpl.
  - exact H.
  - apply IH, NoDup_keys_set, H.
Qed.


Lemma keys_del k d x :
  NoDup (keys d) -> (In x (keys (del k d)) <-> x <> k /\ In x (keys d)).
Proof.
  induction d as [|[k' v'] d IH]; simpl; intros H.
  - tauto.
  - inversion H as [|? ? Hn Hd]; subst.
    destruct (String.eqb_spec k k') as [->|Hne]; simpl.
    + split.
      * intros Hx. split; [intros ->; contradiction | auto].
      * intros [Hx [E|Hin]]; [congruence | exact Hin].
    + rewrite (IH Hd). intuition. subst. congruence.
Qed.

Lemma NoDup_keys_del k d : NoDup (keys d) -> NoDup (keys (del k d)).
Proof.
  induction d as [|[k' v'] d IH]; simpl; intros H; [constructor|].
  inversion H as [|? ? Hn Hd]; subst.
  destruct (String.eqb_spec k k') as [->|Hne]; simpl; [exact Hd|].
  constructor; [|apply IH, Hd].
  intros Hin. apply (keys_del k d k' Hd) in Hin. tauto.
Qed.

Lemma get_absent k d : ~ In k (keys d) -> get k d = None.
Proof.
  induction d as [|[k' v'] d IH]; simpl; intros H; [reflexivity|].
  destruct (String.eqb_spec k k') as [->|Hne]; [tauto|]. apply IH. tauto.
Qed.

Lemma get_del k d x :
  NoDup (keys d) ->
  get x (del k d) = if String.eqb k x then None else get x d.
Proof.
  induction d as [|[k' v'] d IH]; simpl; intros H.
  - destruct (String.eqb k x); reflexivity.
  - inversion H as [|? ? Hn Hd]; subst.
    destruct (String.eqb_spec k k') as [->|Hne]; simpl.
    + destruct (String.eqb_spec k' x) as [E|Hx].
      * subst x. apply get_absent, Hn.
      * destruct (String.eqb_spec x k'); [congruence | reflexivity].
    + rewrite (IH Hd). destruct (String.eqb_spec x k') as [->|Hx].
      * destruct (String.eqb_spec k k'); [contradiction | reflexivity].
      * reflexivity.
Qed.

(** Deleting every key of [l]. *)
Lemma del_all l : forall d,
  NoDup (keys d) ->
  NoDup (keys (fold_left (fun d k => del k d) l d))
  /\ (forall x, In x (keys (fold_left (fun d k => del k d) l d))
                <-> ~ In x l /\ In x (keys d))
  /\ (forall x, get x (fold_left (fun d k => del k d) l d)
                = if inb x l then None else get x d).
Proof.
  induction l as [|k l IH]; intros d H; simpl.
  - repeat split; auto; tauto.
  - destruct (IH (del k d) (NoDup_keys_del k d H)) as (Hn & Hk & Hg).
    split; [exact Hn|]. split.
    + intros x. rewrite Hk, (keys_del k d x H). intuition.
    + intros x. rewrite Hg, (get_del k d x H), (String.eqb_sym x k).
      destruct (String.eqb k x), (inb x l); reflexivity.
Qed.

Lemma keys_fromkeys (ks : list string) v x :
  In x (keys (fromkeys ks v)) <-> In x ks.
Proof.
  unfold fromkeys, of_pairs. rewrite keys_update. simpl.
  unfold keys. rewrite map_map. simpl. rewrite map_id. tauto.
Qed.


End DictFacts.

(** ** [refresh] *)


Lemma NoDup_to_set l : NoDup (to_set l).
Proof. apply NoDup_nodup. Qed.



(** ** Exceptions of the decoder *)











(** ** The list of wallpapers *)









(** ** Timestamps through their ISO text *)

Module DatetimeFacts.
Import Datetime.
Local Open Scope Z_scope.

Lemma digit_val_digit d : 0 <= d <= 9 -> digit_val (digit d) = Some d.
Proof.
  intros H.
  assert (E : d = 0 \/ d = 1 \/ d = 2 \/ d = 3 \/ d = 4 \/ d = 5 \/ d = 6
              \/ d = 7 \/ d = 8 \/ d = 9) by lia.
  repeat (destruct E as [-> | E]; [reflexivity|]). subst. reflexivity.
Qed.

Lemma number_from_app a : forall acc b,
  number_from acc (a ++ b)
  = match number_from acc a with
    | Some x => number_from x b
    | None => None
    end.
Proof.
  induction a as [|c a IH]; intros acc b; simpl; [reflexivity|].
  destruct (digit_val c); [apply IH | reflexivity].
Qed.

Lemma length_pad w : forall n, List.length (pad w n) = w.
Proof.
  induction w as [|w IH]; intros n; simpl; [reflexivity|].
  rewrite length_app, IH. simpl. lia.
Qed.

Lemma number_from_pad w : forall acc n,
  0 <= n < 10 ^ Z.of_nat w ->
  number_from acc (pad w n) = Some (acc * 10 ^ Z.of_nat w + n).
Proof.
  induction w as [|w IH]; intros acc n Hn.
  - simpl in *. f_equal. lia.
  - rewrite Nat2Z.inj_succ, Z.pow_succ_r in * by lia.
    cbn [pad]. rewrite number_from_app, IH by lia. cbn [number_from].
    rewrite digit_val_digit by lia. f_equal. lia.
Qed.

Lemma take_num_pad w n r :
  0 <= n < 10 ^ Z.of_nat w -> take_num w (pad w n ++ r) = Some (n, r).
Proof.
  intros Hn. unfold take_num.
  assert (Ef : firstn w (pad w n ++ r) = pad w n).
  { rewrite <- (length_pad w n) at 1. rewrite firstn_app, firstn_all.
    rewrite Nat.sub_diag. simpl. apply app_nil_r. }
  assert (Es : skipn w (pad w n ++ r) = r).
  { rewrite <- (length_pad w n) at 1. rewrite skipn_app, skipn_all.
    rewrite Nat.sub_diag. reflexivity. }
  rewrite Ef, Es, length_pad, Nat.eqb_refl, number_from_pad by exact Hn.
  reflexivity.
Qed.

Lemma expect_cons c r : expect c (c :: r) = Some r.
Proof. simpl. rewrite Ascii.eqb_refl. reflexivity. Qed.

Lemma parse_offset_chars o :
  valid_offset o = true -> parse_offset (offset_chars o) = Some o.
Proof.
  destruct o as [z|]; [|reflexivity]. intros Hv. unfold valid_offset in Hv.
  apply andb_true_iff in Hv. destruct Hv as [Hl Hu].
  apply Z.ltb_lt in Hl, Hu.
  unfold offset_chars, parse_offset. cbv zeta. cbn [app].
  set (a := Z.abs z).
  assert (Ha : 0 <= a < 86400) by (unfold a; lia).
  assert (E1 : 0 <= a / 3600 < 10 ^ Z.of_nat 2) by (simpl; lia).
  assert (E2 : 0 <= a / 60 mod 60 < 10 ^ Z.of_nat 2) by (simpl; lia).
  assert (E3 : 0 <= a mod 60 < 10 ^ Z.of_nat 2) by (simpl; lia).
  assert (Hsum : a / 3600 * 3600 + a / 60 mod 60 * 60 + a mod 60 = a) by lia.
  assert (Hsg : forall sg, sg = (if z <? 0 then -1 else 1) -> sg * a = z).
  { intros sg ->. unfold a. destruct (Z.ltb_spec z 0); lia. }
  assert (Hsign :
            (if Ascii.eqb (if z <? 0 then "-"%char else "+"%char) "+"
             then Some 1
             else if Ascii.eqb (if z <? 0 then "-"%char else "+"%char) "-"
                  then Some (-1) else None)
            = Some (if z <? 0 then -1 else 1)).
  { destruct (z <? 0); reflexivity. }
  rewrite Hsign. cbn [obind].
  rewrite (take_num_pad 2 _ _ E1). cbn [obind app].
  rewrite expect_cons. cbn [obind].
  destruct (a mod 60 =? 0) eqn:E0.
  - rewrite (take_num_pad 2 _ _ E2). cbn [obind].
    apply Z.eqb_eq in E0. do 2 f_equal.
    transitivity ((if z <? 0 then -1 else 1) * a);
      [f_equal; lia | apply Hsg; reflexivity].
  - rewrite (take_num_pad 2 _ _ E2). cbn [obind].
    rewrite expect_cons. cbn [obind].
    rewrite <- (app_nil_r (pad 2 (a mod 60))).
    rewrite (take_num_pad 2 _ _ E3). cbn [obind].
    do 2 f_equal.
    transitivity ((if z <? 0 then -1 else 1) * a);
      [f_equal; lia | apply Hsg; reflexivity].
Qed.

(** [fromisoformat] undoes [isoformat] on every timestamp the [datetime]
    constructor accepts. *)
Lemma fromisoformat_isoformat (t : datetime) :
  valid t = true -> fromisoformat (isoformat t) = Some t.
Proof.
  intros Hv. unfold fromisoformat, isoformat.
  rewrite list_ascii_of_string_of_list_ascii.
  destruct t as [y mo dd h mi s us tz].
  pose proof Hv as Hv'. unfold valid in Hv'.
  cbn [year month day hour minute second microsecond tzinfo] in Hv'.
  repeat (apply andb_true_iff in Hv'; destruct Hv' as [Hv' ?]).
  repeat match goal with
         | H : (_ <=? _) = true |- _ => apply Z.leb_le in H
         | H : (_ <? _) = true |- _ => apply Z.ltb_lt in H
         end.
  assert (Hd : dd <= 31).
  { unfold days_in_month in *.
    repeat match goal with
           | H : context [if ?c then _ else _] |- _ => destruct c
           end; lia. }
  unfold parse, iso_chars.
  cbn [year month day hour minute second microsecond tzinfo].
  rewrite (take_num_pad 4) by (simpl; lia). cbn [obind app].
  rewrite expect_cons. cbn [obind].
  rewrite (take_num_pad 2) by (simpl; lia). cbn [obind app].
  rewrite expect_cons. cbn [obind].
  rewrite (take_num_pad 2) by (simpl; lia). cbn [obind app].
  rewrite (take_num_pad 2) by (simpl; lia). cbn [obind app].
  rewrite expect_cons. cbn [obind].
  rewrite (take_num_pad 2) by (simpl; lia). cbn [obind app].
  rewrite expect_cons. cbn [obind].
  rewrite (take_num_pad 2) by (simpl; lia). cbn [obind app].
  destruct (us =? 0) eqn:Eus.
  - apply Z.eqb_eq in Eus. subst us. cbn [app].
    assert (E : match offset_chars tz with
                | "."%char :: r => take_num 6 r
                | _ => Some (0, offset_chars tz)
                end = Some (0, offset_chars tz)).
    { destruct tz as [z|]; [|reflexivity]. unfold offset_chars. cbn [app].
      destruct (z <? 0); reflexivity. }
    rewrite E. cbn [obind]. rewrite parse_offset_chars by assumption.
    cbn [obind]. rewrite Hv. reflexivity.
  - cbn [app]. rewrite (take_num_pad 6) by (simpl; lia). cbn [obind].
    rewrite parse_offset_chars by assumption.
    cbn [obind]. rewrite Hv. reflexivity.
Qed.


End DatetimeFacts.

(** ** The codec, there and back *)

Lemma pyval_rect' (P : pyval -> Prop) :
  P VNone -> (forall b, P (VBool b)) -> (forall z, P (VInt z)) ->
  (forall s, P (VStr s)) ->
  (forall l, Forall P l -> P (VList l)) ->
  (forall d, Forall (fun kv => P (snd kv)) d -> P (VDict d)) ->
  (forall t, P (VDatetime t)) -> (forall p, P (VPath p)) ->
  (forall cls d, Forall (fun kv => P (snd kv)) d -> P (VObj cls d)) ->
  (forall cls, P (VOpaque cls)) ->
  forall v, P v.
Proof.
  intros Hn Hb Hz Hs Hl Hd Ht Hp Ho Hq.
  fix IH 1. intros [| b | z | s | l | d | t | p | cls d | cls].
  - exact Hn.
  - apply Hb.
  - apply Hz.
  - apply Hs.
  - apply Hl. induction l as [|x l IHl]; constructor; [apply IH | exact IHl].
  - apply Hd. induction d as [|[k x] d IHd]; constructor; [apply IH | exact IHd].
  - apply Ht.
  - apply Hp.
  - apply Ho. induction d as [|[k x] d IHd]; constructor; [apply IH | exact IHd].
  - apply Hq.
Qed.

Lemma nodupb_NoDup l : nodupb l = true -> NoDup l.
Proof.
  induction l as [|x l IH]; simpl; intros H; [constructor|].
  apply andb_true_iff in H. destruct H as [Hx Hl].
  constructor; [|apply IH, Hl].
  apply negb_true_iff, inb_false in Hx. exact Hx.
Qed.

(** [dict(pairs)] of pairs with distinct keys is the list of pairs. *)
Lemma of_pairs_NoDup {V} (d : dict V) : NoDup (keys d) -> of_pairs d = d.
Proof.
  unfold of_pairs, update.
  assert (H : forall (acc : dict V),
             NoDup (keys (acc ++ d)) ->
             fold_left (fun a kv => set (fst kv) (snd kv) a) d acc = acc ++ d).
  { induction d as [|[k v] d IH]; intros acc Hn; simpl.
    - symmetry. apply app_nil_r.
    - rewrite set_absent.
      + rewrite IH; rewrite <- app_assoc; [reflexivity | exact Hn].
      + unfold keys in Hn. rewrite map_app in Hn. simpl in Hn.
        apply NoDup_remove_2 in Hn. intros Hin. apply Hn.
        apply in_or_app. left. exact Hin. }
  intros Hn. apply (H [] Hn).
Qed.

(** The walk of [json.load] over the members that the walk of [json.dump]
    wrote, given that each member goes there and back. *)
Lemma roundtrip_members local (d : dict pyval) :
  Forall (fun kv => exists j, dump (snd kv) = Ok j
                              /\ load (decode local) j
                                 = Ok (normalize local (snd kv))) d ->
  exists js,
    mapM (fun kv => v <- dump (snd kv) ;; Ok (fst kv, v)) d = Ok js
    /\ mapM (fun kv => v <- load (decode local) (snd kv) ;; Ok (fst kv, v)) js
       = Ok (map (fun kv => (fst kv, normalize local (snd kv))) d).
Proof.
  induction 1 as [|[k v] d (j & Hd & Hl) _ (js & Hjs & Hls)].
  - exists []. split; reflexivity.
  - exists ((k, j) :: js). cbn [mapM map fst snd] in *.
    rewrite Hd, Hjs, Hl, Hls. split; reflexivity.
Qed.

Lemma roundtrip_elements local (l : list pyval) :
  Forall (fun x => exists j, dump x = Ok j
                             /\ load (decode local) j
                                = Ok (normalize local x)) l ->
  exists js,
    mapM dump l = Ok js
    /\ mapM (load (decode local)) js = Ok (map (normalize local) l).
Proof.
  induction 1 as [|v l (j & Hd & Hl) _ (js & Hjs & Hls)].
  - exists []. split; reflexivity.
  - exists (j :: js). cbn [mapM map] in *.
    rewrite Hd, Hjs, Hl, Hls. split; reflexivity.
Qed.

Lemma Forall_supported {A} (P : A -> Prop) (g : A -> pyval) (l : list A) :
  Forall (fun x => supported (g x) = true -> P x) l ->
  forallb (fun x => supported (g x)) l = true ->
  Forall P l.
Proof.
  induction 1 as [|x l Hx _ IH]; simpl; intros H; constructor;
    apply andb_true_iff in H; destruct H; auto.
Qed.

Lemma keys_normalized local (d : dict pyval) :
  keys (map (fun kv => (fst kv, normalize local (snd kv))) d) = keys d.
Proof. unfold keys. rewrite map_map. reflexivity. Qed.

(** Encoding then decoding a supported value gives the value with its
    timestamps moved to the local zone. *)
Lemma dump_load local : forall v,
  supported v = true ->
  exists j, dump v = Ok j /\ load (decode local) j = Ok (normalize local v).
Proof.
  induction v as [| b | z | s | l IH | d IH | t | p | cls d IH | cls]
    using pyval_rect'; intros Hs.
  - exists JNull. split; reflexivity.
  - exists (JBool b). split; reflexivity.
  - exists (JNum z). split; reflexivity.
  - exists (JStr s). split; reflexivity.
  - cbn [supported] in Hs.
    destruct (roundtrip_elements local l
                (Forall_supported _ (fun x => x) l IH Hs)) as (js & Hd & Hl).
    exists (JArr js). cbn [dump load]. rewrite Hd. cbn [Py.bind].
    rewrite Hl. split; reflexivity.
  - cbn [supported] in Hs.
    apply andb_true_iff in Hs. destruct Hs as [Hs Hall].
    apply andb_true_iff in Hs. destruct Hs as [Hnd Hty].
    apply nodupb_NoDup in Hnd. apply negb_true_iff, inb_false in Hty.
    destruct (roundtrip_members local d (Forall_supported _ snd d IH Hall))
      as (js & Hd & Hl).
    exists (JObj js). cbn [dump load]. rewrite Hd. cbn [Py.bind].
    rewrite Hl. cbn [Py.bind]. split; [reflexivity|].
    rewrite of_pairs_NoDup by (rewrite keys_normalized; exact Hnd).
    unfold decode. rewrite get_absent by (rewrite keys_normalized; exact Hty).
    reflexivity.
  - cbn [supported] in Hs. eexists. split; [reflexivity|].
    cbn [load mapM fst snd Py.bind].
    change (of_pairs [("datetime", VStr (Datetime.isoformat t));
                      (_TYPE_KEY, VStr "datetime")])
      with [("datetime", VStr (Datetime.isoformat t));
            (_TYPE_KEY, VStr "datetime")].
    unfold decode.
    change (get _TYPE_KEY [("datetime", VStr (Datetime.isoformat t));
                           (_TYPE_KEY, VStr "datetime")])
      with (Some (VStr "datetime")).
    cbv beta iota.
    change (String.eqb "datetime" "datetime") with true. cbv iota.
    change (get "datetime" (del _TYPE_KEY
              [("datetime", VStr (Datetime.isoformat t));
               (_TYPE_KEY, VStr "datetime")]))
      with (Some (VStr (Datetime.isoformat t))).
    cbv iota. rewrite (DatetimeFacts.fromisoformat_isoformat t Hs).
    reflexivity.
  - exists (JObj [("path", JStr p); (_TYPE_KEY, JStr "PosixPath")]).
    split; reflexivity.
  - cbn [supported] in Hs.
    apply andb_true_iff in Hs. destruct Hs as [Hshape Hall].
    pose proof (Forall_supported _ snd d IH Hall) as HF.
    unfold record_shape, same_keys in Hshape.
    apply orb_true_iff in Hshape.
    destruct Hshape as [Hsh | Hsh]; apply andb_true_iff in Hsh;
      destruct Hsh as [Hc Hk]; apply String.eqb_eq in Hc; subst cls;
      destruct (list_eq_dec string_dec _ _) as [Ek|]; [|discriminate| |discriminate];
      clear Hk.
    + destruct d as [|[k1 v1] [|[k2 v2] [|? ?]]]; try discriminate Ek.
      cbn in Ek. injection Ek as -> ->.
      inversion HF as [|? ? (j1 & Hd1 & Hl1) HF']; subst.
      inversion HF' as [|? ? (j2 & Hd2 & Hl2) _]; subst.
      cbn [fst snd] in *.
      exists (JObj [("updated_at", j1); ("current", j2);
                    (_TYPE_KEY, JStr "Target")]).
      split.
      * cbn. rewrite Hd1, Hd2. reflexivity.
      * cbn [load mapM fst snd Py.bind]. rewrite Hl1, Hl2. reflexivity.
    + destruct d as [|[k1 v1] [|[k2 v2] [|[k3 v3] [|? ?]]]]; try discriminate Ek.
      cbn in Ek. injection Ek as -> -> ->.
      inversion HF as [|? ? (j1 & Hd1 & Hl1) HF']; subst.
      inversion HF' as [|? ? (j2 & Hd2 & Hl2) HF'']; subst.
      inversion HF'' as [|? ? (j3 & Hd3 & Hl3) _]; subst.
      cbn [fst snd] in *.
      exists (JObj [("startpage_used", j1); ("mobile_suitable", j2);
                    ("mobile_used", j3); (_TYPE_KEY, JStr "Wallpaper")]).
      split.
      * cbn. rewrite Hd1, Hd2, Hd3. reflexivity.
      * cbn [load mapM fst snd Py.bind]. rewrite Hl1, Hl2, Hl3. reflexivity.
  - discriminate Hs.
Qed.





(** ** Unknown type tags *)

Section Related.
Variable g : json -> result pyval.





End Related.





(* ================================================================== *)
(** * Further properties *)
(* ================================================================== *)

Import Notions.

(** ** Sessions from end to end *)

Lemma filter_quiet (l evs : list event) :
  forallb (fun e => negb (is_write e)) evs = true ->
  filter is_write (l ++ evs) = filter is_write l.
Proof.
  intros H. rewrite filter_app.
  assert (E : filter is_write evs = []).
  { apply filter_nil_iff. intros e He. rewrite forallb_forall in H.
    apply negb_true_iff. apply H, He. }
  rewrite E. apply app_nil_r.
Qed.

(** What [_open] does to the file and to the log, whatever its outcome:
    it writes no event of its own kind but an open and a lock, and in the
    two modes that read it leaves the content alone. *)
Lemma _open_effects local f mode w :
  (exists evs, log (snd (_open local f mode w)) = log w ++ evs
               /\ forallb (fun e => negb (is_write e)) evs = true)
  /\ (mode = "r" \/ mode = "w" -> file (snd (_open local f mode w)) = file w).
Proof.
  unfold _open, path_open, FileLock.acquire.
  destruct (file_mode_recognized mode) as [Hr | Hk].
  2:{ rewrite Hk. simpl. split.
      - exists []. rewrite app_nil_r. auto.
      - reflexivity. }
  destruct Hr as [-> | [-> | [-> | ->]]]; simpl;
    destruct (open_fails f); simpl;
    destruct (file w) as [c|] eqn:Ew; simpl;
    destruct (flock_fails f); simpl;
    unfold json_load; simpl;
    repeat match goal with
           | |- context [match ?x with _ => _ end] => destruct x; simpl
           end;
    (split;
     [ first [ exists []; rewrite app_nil_r; split; reflexivity
             | eexists [_]; split; reflexivity
             | eexists [_; _]; rewrite <- app_assoc; split; reflexivity ]
     | first [ reflexivity | intros _; exact Ew
             | intros [H|H]; discriminate H ] ]).
Qed.

Lemma close_effects f self w :
  file (snd (close f self w)) = file w
  /\ exists evs, log (snd (close f self w)) = log w ++ evs
                 /\ forallb (fun e => negb (is_write e)) evs = true.
Proof.
  unfold close, FileLock.release, FileLock.locked, emit.
  destruct (FileLock._locked (_lock self)), (unlock_fails f), (fd_open w);
    simpl; (split; [reflexivity|]);
    first [ exists []; rewrite app_nil_r; split; reflexivity
          | eexists [_]; split; reflexivity
          | eexists [_; _]; rewrite <- app_assoc; split; reflexivity ].
Qed.

(** X1.  A session opened with mode ["r"] never writes: whatever its body does
    and whatever fails, the file holds afterwards what it held before,
    and no truncation and no write is logged. *)
Theorem readonly_session_never_writes {A : Type} (local : Z) (f : faults)
    (body : dict pyval -> result A * dict pyval) (w : world) :
  file (snd (with_open local f "r" body w)) = file w
  /\ filter is_write (log (snd (with_open local f "r" body w)))
     = filter is_write (log w).
Proof.
  destruct (_open_effects local f "r" w) as ((evs & Hlog & Hq) & Hfile).
  specialize (Hfile (or_introl eq_refl)).
  unfold with_open.
  destruct (_open local f "r" w) as [[self|e] w1] eqn:Eo; simpl in Hlog, Hfile.
  - destruct (_open_ok _ _ _ _ _ _ Eo) as (Hm & Hwb & _).
    assert (Hen : __enter__ self = self) by (unfold __enter__; rewrite Hm; reflexivity).
    rewrite Hen. destruct (body (vars self)) as [[a|e] vs].
    + unfold __exit__. cbn [_writeback]. rewrite Hwb.
      destruct (close_effects f (Session.mk (_mode self) false (_lock self) vs) w1)
        as (Hcf & evs' & Hcl & Hq').
      cbn [snd]. rewrite Hcf, Hcl, Hfile, Hlog.
      split; [reflexivity|]. rewrite !filter_quiet by assumption. reflexivity.
    + unfold __exit__.
      destruct (close_effects f (Session.mk (_mode self) (_writeback self)
                                            (_lock self) vs) w1)
        as (Hcf & evs' & Hcl & Hq').
      cbn [snd]. rewrite Hcf, Hcl, Hfile, Hlog.
      split; [reflexivity|]. rewrite !filter_quiet by assumption. reflexivity.
  - cbn [snd]. rewrite Hfile, Hlog. split; [reflexivity|].
    apply filter_quiet, Hq.
Qed.

(** The log a successful [_open] leaves. *)
Lemma _open_ok_log local f mode w self w1 :
  _open local f mode w = (Ok self, w1) ->
  exists fm,
    file_mode mode = Ok fm
    /\ log w1 = log w ++ [EvOpen fm;
                          EvFlock (if String.eqb mode "r"
                                   then FileLock.LOCK_SH else FileLock.LOCK_EX)]
    /\ held w1 = Some (lock_for mode).
Proof.
  unfold _open, path_open, FileLock.acquire, lock_for.
  destruct (file_mode_recognized mode) as [Hr | Hk];
    [| rewrite Hk; simpl; discriminate].
  destruct Hr as [-> | [-> | [-> | ->]]]; simpl;
    destruct (open_fails f); simpl; try discriminate;
    destruct (file w) as [c|]; simpl; try discriminate;
    destruct (flock_fails f); simpl; try discriminate;
    unfold json_load; simpl;
    repeat match goal with
           | |- context [match ?x with _ => _ end] =>
               destruct x; simpl; try discriminate
           end;
    intros [= <- <-]; eexists; simpl; rewrite <- app_assoc;
    repeat split; reflexivity.
Qed.

(** X2.  In a writable session that goes well the lock is taken right after
    the file is opened, before anything is read or written; the record is
    written while the lock is held; the lock is released after the write
    and the file is closed last.  The file then holds the document of the
    attributes the body left. *)
Theorem writable_session_order {A : Type} (local : Z) (f : faults)
    (mode : string) (body : dict pyval -> result A * dict pyval) (w : world)
    (self : WallpaperDatabase) (w1 : world) (a : A) (vs : dict pyval)
    (doc : json) :
  _open local f mode w = (Ok self, w1) ->
  mode <> "r" ->
  body (vars (__enter__ self)) = (Ok a, vs) ->
  dump (VDict (filter (fun kv => negb (String.prefix "_" (fst kv))) vs)) = Ok doc ->
  write_fails f = false ->
  unlock_fails f = false ->
  exists fm,
    file_mode mode = Ok fm
    /\ with_open local f mode body w
       = (Ok a, mkWorld (Some (Text doc)) None false
                  (log w ++ [EvOpen fm; EvFlock FileLock.LOCK_EX; EvSeek;
                             EvTruncate; EvWrite doc; EvUnlock; EvClose])).
Proof.
  intros Eo Hm Hb Hd Hw Hu.
  destruct (_open_ok _ _ _ _ _ _ Eo) as (Hmode & Hwb & Hl & Hfd & _).
  destruct (_open_ok_log _ _ _ _ _ _ Eo) as (fm & Hfm & Hlog & Hheld).
  apply String.eqb_neq in Hm. rewrite Hm in Hlog.
  exists fm. split; [exact Hfm|].
  unfold with_open. rewrite Eo, Hb.
  assert (Hen : _writeback (__enter__ self) = true).
  { unfold __enter__. rewrite Hmode, Hm. reflexivity. }
  unfold __exit__, save. cbn [_writeback vars]. rewrite Hen, Hd, Hw.
  unfold close, FileLock.release. cbn [_lock].
  assert (Hl' : FileLock.locked (_lock (__enter__ self)) = true).
  { unfold __enter__. destruct (negb _); exact Hl. }
  rewrite Hl'. unfold FileLock.locked in Hl'. rewrite Hl', Hu.
  unfold emit. cbn. rewrite Hfd. cbn. rewrite Hlog.
  rewrite <- !app_assoc. reflexivity.
Qed.

Lemma writable_session_order_witness :
  exists fm,
    file_mode "n" = Ok fm
    /\ with_open 0 no_faults "n" idle_body no_file
       = (Ok tt, mkWorld (Some (Text (JObj []))) None false
                   ([] ++ [EvOpen fm; EvFlock FileLock.LOCK_EX; EvSeek;
                           EvTruncate; EvWrite (JObj []); EvUnlock; EvClose])).
Proof.
  apply (writable_session_order 0 no_faults "n" idle_body no_file
           (Session.mk "n" false (FileLock.mk 2 true) [])
           (snd (_open 0 no_faults "n" no_file)) tt [] (JObj []));
    try reflexivity.
  discriminate.
Defined.



(** X4.  Closing twice is closing once, as long as the unlock does not fail:
    the second [close] finds the lock released and the file closed and
    does nothing. *)
Theorem close_twice (f : faults) (self : WallpaperDatabase) (w : world) :
  unlock_fails f = false ->
  close f (fst (close f self w)) (snd (close f self w)) = close f self w.
Proof.
  intros Hu. unfold close, FileLock.release, FileLock.locked, emit.
  rewrite Hu.
  destruct (FileLock._locked (_lock self)) eqn:El, (fd_open w) eqn:Ef;
    cbn; rewrite ?El, ?Ef; cbn; rewrite ?Hu, ?Ef; reflexivity.
Qed.

Lemma close_twice_witness :
  close no_faults (fst (close no_faults dirty_session dirty_world))
        (snd (close no_faults dirty_session dirty_world))
  = close no_faults dirty_session dirty_world.
Proof. apply close_twice. reflexivity. Defined.

(** X5.  A body that raises inside a session opened with mode ["w"] changes
    nothing on disk: the exception goes on to the caller, the file holds
    what it held, the lock is gone and the file is closed. *)
Theorem failed_body_leaves_file {A : Type} (local : Z) (f : faults)
    (body : dict pyval -> result A * dict pyval) (w : world)
    (self : WallpaperDatabase) (w1 : world) (e : exn) (vs : dict pyval) :
  _open local f "w" w = (Ok self, w1) ->
  body (vars (__enter__ self)) = (Raise e, vs) ->
  fst (with_open local f "w" body w) = Raise e
  /\ file (snd (with_open local f "w" body w)) = file w
  /\ held (snd (with_open local f "w" body w)) = None
  /\ fd_open (snd (with_open local f "w" body w)) = false.
Proof.
  intros Eo Hb.
  destruct (_open_ok _ _ _ _ _ _ Eo) as (Hmode & Hwb & Hl & Hfd & Hfile).
  specialize (Hfile (or_intror eq_refl)).
  unfold with_open. rewrite Eo, Hb. unfold __exit__. cbn [fst snd].
  unfold close, FileLock.release. cbn [_lock].
  assert (Hl' : FileLock._locked (_lock (__enter__ self)) = true).
  { unfold __enter__. destruct (negb _); exact Hl. }
  unfold FileLock.locked. rewrite Hl'.
  destruct (unlock_fails f); cbn; rewrite Hfd; cbn; auto.
Qed.

Lemma failed_body_leaves_file_witness :
  file (snd (with_open 0 no_faults "w" failing_body stored_empty))
  = file stored_empty.
Proof.
  eapply (failed_body_leaves_file 0 no_faults failing_body stored_empty
            _ _ StartpageSetError _).
  - vm_compute. reflexivity.
  - reflexivity.
Defined.

(** X6.  Opening with mode ["n"] empties the file at once.  If the body of the
    session then raises, nothing is written back: the previous database
    is gone, the file is left empty, and opening it for reading fails
    with [DatabaseDecodeError]. *)
Theorem replace_mode_discards {A : Type} (local : Z) (f : faults)
    (body : dict pyval -> result A * dict pyval) (w : world) (e : exn)
    (vs : dict pyval) :
  open_fails f = false -> flock_fails f = false ->
  body [] = (Raise e, vs) ->
  fst (with_open local f "n" body w) = Raise e
  /\ file (snd (with_open local f "n" body w)) = Some Malformed
  /\ (forall local' f',
         open_fails f' = false -> flock_fails f' = false ->
         fst (_open local' f' "r" (snd (with_open local f "n" body w)))
         = Raise DatabaseDecodeError).
Proof.
  intros Hf Hl Hb.
  assert (E : exists w', with_open local f "n" body w = (Raise e, w')
                         /\ file w' = Some Malformed).
  { unfold with_open, _open, path_open, FileLock.acquire. simpl.
    rewrite Hf. simpl. rewrite Hl. simpl. rewrite Hb.
    unfold __exit__, close, FileLock.release, FileLock.locked. simpl.
    destruct (unlock_fails f); simpl; eexists; split; reflexivity. }
  destruct E as (w' & -> & Hw'). cbn [fst snd].
  split; [reflexivity|]. split; [exact Hw'|].
  intros local' f' Hf' Hl'.
  unfold _open, path_open, FileLock.acquire, json_load. simpl.
  rewrite Hf', Hw'. simpl. rewrite Hl'. reflexivity.
Qed.

Lemma replace_mode_discards_witness :
  file (snd (with_open 0 no_faults "n" failing_body stored_empty))
  = Some Malformed.
Proof.
  apply (replace_mode_discards 0 no_faults failing_body stored_empty
           StartpageSetError []); reflexivity.
Defined.

(** ** More on the selection *)

Lemma mobile_flags_mark k b ws : mobile_flags (mark k b ws) = mobile_flags ws.
Proof.
  unfold mobile_flags, mark. rewrite map_map. apply map_ext.
  intros [k' v]. simpl. destruct (String.eqb k k'); reflexivity.
Qed.

Lemma mobile_flags_reset ws : mobile_flags (reset_used ws) = mobile_flags ws.
Proof.
  unfold mobile_flags, reset_used. rewrite map_map. apply map_ext.
  intros [k' v]. reflexivity.
Qed.

Lemma kept_refl st : kept st st.
Proof. repeat split. Qed.

Lemma kept_trans a b c : kept a b -> kept b c -> kept a c.
Proof.
  intros (A1 & A2 & A3 & A4) (B1 & B2 & B3 & B4).
  repeat split; congruence.
Qed.

Lemma _set_startpage_kept dk now n : forall st,
  kept st (snd (_set_startpage dk now n st)).
Proof.
  induction n as [|n IH]; intros st; simpl; [apply kept_refl|].
  destruct (next_draw (draws st)) as [r rest].
  destruct (choice r (walls_unused st)) as [k|]; [|apply kept_refl].
  destruct (base_directory (db st)) as [dir|] eqn:Eb; [|apply kept_refl].
  destruct (is_file dk dir k).
  - cbn [snd]. unfold kept. cbn. rewrite mobile_flags_mark. auto.
  - eapply kept_trans; [|apply IH]. unfold kept. cbn. auto.
Qed.

Lemma set_startpage_body_kept (dk : disk) (now : Datetime.datetime)
    (exclusions : list string) (st : search) :
  kept st (snd (set_startpage_body dk now exclusions st)).
Proof.
  unfold set_startpage_body.
  destruct (List.length _ =? 0); [apply kept_refl|].
  set (s0 := mkSearch (db st) _ _ _ _).
  assert (K0 : kept st s0) by (unfold kept; cbn; auto).
  cbn [rounds].
  pose proof (_set_startpage_kept dk now (List.length (walls_unused s0)) s0) as K1.
  destruct (_set_startpage dk now (List.length (walls_unused s0)) s0)
    as [[[]|e] s1]; cbn [snd] in K1 |- *;
    try exact (kept_trans _ _ _ K0 K1).
  assert (K2 : forall s, kept s1 s -> kept st
                 (snd (let (r, st') :=
                         match _set_startpage dk now (List.length (walls_unused s)) s with
                         | (Ok true, st') => (Ok true, st')
                         | (Ok false, st') =>
                             if List.length (walls_unused st') =? 0
                             then (Ok false,
                                   mkSearch (with_wallpapers
                                               (reset_used (wallpapers (db st')))
                                               (db st'))
                                            (filter (included exclusions)
                                                    (keys (wallpapers (db st))))
                                            (background st') (draws st')
                                            (warnings st'))
                             else (Ok false, st')
                         | (Raise e, st') => (Raise e, st')
                         end in
                       match r with
                       | Ok true => (Ok VNone, st')
                       | Ok false => (Raise StartpageSetError, st')
                       | Raise e => (Raise e, st')
                       end))).
  { intros s Ks.
    pose proof (_set_startpage_kept dk now (List.length (walls_unused s)) s) as K.
    assert (Kt : kept st (snd (_set_startpage dk now (List.length (walls_unused s)) s))).
    { exact (kept_trans _ _ _ (kept_trans _ _ _ (kept_trans _ _ _ K0 K1) Ks) K). }
    destruct (_set_startpage dk now (List.length (walls_unused s)) s)
      as [[[]|e] s2]; cbn [snd] in Kt |- *; try exact Kt.
    destruct (List.length (walls_unused s2) =? 0); cbn [snd]; [|exact Kt].
    eapply kept_trans; [exact Kt|].
    unfold kept. cbn. rewrite mobile_flags_reset. auto. }
  destruct (List.length (walls_unused s1) =? 0).
  - apply K2. unfold kept. cbn. rewrite mobile_flags_reset. auto.
  - apply K2. apply kept_refl.
Qed.

(** X7.  A selection, whether it succeeds or not, neither adds nor removes nor
    reorders entries, leaves the two mobile flags of every entry as they
    were, and does not touch [base_directory], [created_at] or the
    record's own [updated_at]. *)
Theorem selection_keeps_catalogue (dk : disk) (now : Datetime.datetime)
    (exclusions : list string) (st : search) :
  kept st (snd (set_startpage_body dk now exclusions st)).
Proof. exact (set_startpage_body_kept dk now exclusions st). Qed.

Lemma prefix_spec n : forall h,
  String.prefix n h = true <-> exists post, h = (n ++ post)%string.
Proof.
  induction n as [|c n IH]; intros h.
  - split; [intros _; exists h; reflexivity | intros _; destruct h; reflexivity].
  - destruct h as [|c' h]; cbn [String.prefix append].
    + split; [discriminate | intros (post & H); discriminate H].
    + destruct (ascii_dec c c') as [<-|Hne].
      * rewrite IH. split; intros (post & H); exists post.
        -- rewrite H. reflexivity.
        -- injection H as H. exact H.
      * split; [discriminate|]. intros (post & H). injection H as H _.
        congruence.
Qed.

Lemma contains_step n c r :
  contains n (String c r)
  = if String.prefix n (String c r) then true else contains n r.
Proof. reflexivity. Qed.

(** [contains] is Python's [in] on two strings. *)
Lemma contains_spec n : forall h, contains n h = true <-> substring n h.
Proof.
  intros h. split.
  - induction h as [|c r IH].
    + cbn [contains]. destruct (String.prefix n "") eqn:Ep; [|discriminate].
      intros _. apply prefix_spec in Ep. destruct Ep as (post & H).
      exists ""%string, post. exact H.
    + rewrite contains_step. destruct (String.prefix n (String c r)) eqn:Ep.
      * intros _. apply prefix_spec in Ep. destruct Ep as (post & H).
        exists ""%string, post. exact H.
      * intros H. destruct (IH H) as (pre & post & E).
        exists (String c pre), post. rewrite E. reflexivity.
  - intros (pre & post & E). subst h.
    induction pre as [|c pre IH].
    + cbn [append].
      assert (Ep : String.prefix n (n ++ post) = true)
        by (apply prefix_spec; eauto).
      destruct (n ++ post)%string eqn:En.
      * cbn [contains]. rewrite Ep. reflexivity.
      * rewrite contains_step, Ep. reflexivity.
    + cbn [append]. rewrite contains_step.
      destruct (String.prefix n _); [reflexivity | exact IH].
Qed.

Lemma set_startpage_body_excluded (dk : disk) (now : Datetime.datetime)
    (dir : string) (exclusions : list string) (st : search) (v : pyval)
    (st' : search) :
  base_directory (db st) = Some dir ->
  set_startpage_body dk now exclusions st = (Ok v, st') ->
  exists k,
    In k (keys (wallpapers (db st)))
    /\ background st' = Some (joinpath dir k)
    /\ current (startpage (db st')) = Some (joinpath dir k)
    /\ forall ex, In ex exclusions -> ~ substring ex k.
Proof.
  intros Hb He.
  destruct (set_startpage_body_spec dk now dir exclusions st Hb)
    as (r & s' & He' & _ & Hr).
  rewrite He in He'. injection He' as <- <-.
  destruct Hr as [(Habs & _) | (_ & k & Hk & Hbg & Hsp & _)]; [discriminate|].
  exists k. unfold pool in Hk. apply filter_In in Hk. destruct Hk as [Hk Hel].
  unfold eligible in Hel. apply andb_true_iff in Hel. destruct Hel as [Hin _].
  split; [exact Hk|]. split; [exact Hbg|]. split; [rewrite Hsp; reflexivity|].
  intros ex Hex Hsub. unfold included in Hin. apply negb_true_iff in Hin.
  assert (Ht : existsb (fun ex => contains ex k) exclusions = true).
  { apply existsb_exists. exists ex. split; [exact Hex|].
    apply contains_spec, Hsub. }
  congruence.
Qed.



(** X9.  The empty string occurs in every key: with it among the exclusions
    every wallpaper is excluded and the selection always fails with
    [StartpageSetError], whatever the catalogue and the disk. *)
Theorem empty_exclusion_excludes_all (dk : disk) (now : Datetime.datetime)
    (exclusions : list string) (st : search) :
  In ""%string exclusions ->
  set_startpage_body dk now exclusions st = (Raise StartpageSetError, st).
Proof.
  intros Hin. unfold set_startpage_body.
  assert (E : filter (included exclusions) (keys (wallpapers (db st))) = []).
  { apply filter_nil_iff. intros k _. unfold included.
    apply negb_false_iff, existsb_exists. exists ""%string.
    split; [exact Hin|]. apply contains_spec. exists ""%string, k. reflexivity. }
  rewrite E. reflexivity.
Qed.

Lemma empty_exclusion_excludes_all_witness :
  set_startpage_body example_disk example_now ["gone"; ""] example_search
  = (Raise StartpageSetError, example_search).
Proof.
  apply empty_exclusion_excludes_all. right. left. reflexivity.
Defined.



(** ** What is saved is what is read *)

Lemma supported_wallpapers (ws : dict Wallpaper) :
  forallb (fun kv => supported (snd kv))
          (map (fun kv => (fst kv, py_wallpaper (snd kv))) ws) = true.
Proof. induction ws as [|[k v] ws IH]; [reflexivity | exact IH]. Qed.

Lemma keys_py_wallpapers (ws : dict Wallpaper) :
  keys (map (fun kv => (fst kv, py_wallpaper (snd kv))) ws) = keys ws.
Proof. unfold keys. rewrite map_map. reflexivity. Qed.

Lemma supported_to_vars d :
  data_ok d = true -> supported (VDict (to_vars d)) = true.
Proof.
  unfold data_ok. intros H.
  apply andb_true_iff in H. destruct H as [H Ht].
  apply andb_true_iff in H. destruct H as [H Hc].
  apply andb_true_iff in H. destruct H as [H Hu].
  apply andb_true_iff in H. destruct H as [Hn Hk].
  destruct d as [b ws u c s [tu tc]].
  cbn [wallpapers updated_at created_at startpage target_updated_at] in *.
  unfold to_vars. cbn [supported forallb keys map fst snd base_directory
    wallpapers updated_at created_at should_update startpage].
  change (nodupb _) with true at 1. cbn [andb].
  change (negb (inb _TYPE_KEY _)) with true at 1. cbn [andb].
  assert (Hb' : supported (py_path b) = true) by (destruct b; reflexivity).
  assert (Hu' : supported (py_datetime u) = true) by (destruct u; assumption).
  assert (Hc' : supported (py_datetime c) = true) by (destruct c; assumption).
  assert (Ht' : supported (py_target (mkTarget tu tc)) = true).
  { unfold py_target. cbn [supported target_updated_at current forallb snd keys map fst].
    change (record_shape "Target" ["updated_at"; "current"]) with true.
    destruct tu, tc; cbn; rewrite ?andb_true_r; try reflexivity; assumption. }
  rewrite Hb', Hu', Hc', Ht'.
  fold (keys (map (fun kv : string * Wallpaper =>
                     (fst kv, py_wallpaper (snd kv))) ws)).
  rewrite keys_py_wallpapers, supported_wallpapers, Hn, Hk. reflexivity.
Qed.

Lemma normalize_py_datetime local o :
  normalize local (py_datetime o)
  = py_datetime (option_map (Datetime.astimezone local) o).
Proof. destruct o; reflexivity. Qed.

Lemma normalize_py_path local o : normalize local (py_path o) = py_path o.
Proof. destruct o; reflexivity. Qed.

Lemma normalize_to_vars local d :
  normalize local (VDict (to_vars d)) = VDict (to_vars (reload local d)).
Proof.
  destruct d as [b ws u c s [tu tc]]. unfold to_vars, reload.
  cbn [normalize map fst snd base_directory wallpapers updated_at created_at
       should_update startpage target_updated_at current py_target].
  rewrite !normalize_py_datetime, !normalize_py_path.
  do 3 f_equal. f_equal. f_equal. rewrite map_map. apply map_ext.
  intros [k v]. reflexivity.
Qed.

Lemma as_wallpapers_py (ws : dict Wallpaper) :
  as_wallpapers (map (fun kv => (fst kv, py_wallpaper (snd kv))) ws) = Some ws.
Proof.
  induction ws as [|[k [a b c]] ws IH]; [reflexivity|].
  cbn [map as_wallpapers fst snd] in *. rewrite IH. reflexivity.
Qed.

(** The typed view of the attributes of a session that holds [d] is [d]. *)
Lemma of_vars_to_vars d : of_vars (to_vars d) = Some d.
Proof.
  destruct d as [b ws u c s [tu tc]]. unfold to_vars, of_vars.
  cbn [base_directory wallpapers updated_at created_at should_update startpage].
  rewrite as_wallpapers_py.
  destruct b, u, c, tu, tc; reflexivity.
Qed.

Lemma init_data_to_vars d : init_data (VDict (to_vars d)) = Ok (to_vars d).
Proof. reflexivity. Qed.

(** Loading the document of a catalogue gives the catalogue with its
    timestamps moved to the local zone. *)
Lemma load_json_of_data local d :
  data_ok d = true ->
  load (decode local) (json_of_data d) = Ok (VDict (to_vars (reload local d))).
Proof.
  intros H. destruct (dump_load local _ (supported_to_vars d H)) as (j & Hd & Hl).
  rewrite dump_to_vars in Hd. injection Hd as <-.
  rewrite Hl, normalize_to_vars. reflexivity.
Qed.

Lemma _open_json_of_data (local : Z) (f : faults) (mode : string) (w : world)
    (d : WallpaperData) :
  data_ok d = true ->
  mode = "r" \/ mode = "w" ->
  open_fails f = false -> flock_fails f = false ->
  file w = Some (Text (json_of_data d)) ->
  exists self w1,
    _open local f mode w = (Ok self, w1)
    /\ vars self = to_vars (reload local d)
    /\ of_vars (vars self) = Some (reload local d)
    /\ file w1 = file w.
Proof.
  intros Hok Hm Hf Hl Hw.
  pose proof (load_json_of_data local d Hok) as Hload.
  pose proof (init_data_to_vars (reload local d)) as Hinit.
  pose proof (of_vars_to_vars (reload local d)) as Hof.
  remember (json_of_data d) as doc eqn:Edoc.
  remember (to_vars (reload local d)) as vs eqn:Evs.
  unfold _open, path_open, FileLock.acquire, json_load.
  destruct Hm as [-> | ->]; simpl; rewrite Hf, Hw; simpl; rewrite Hl; simpl;
    rewrite Hload; cbn [except]; rewrite Hinit;
    eexists _, _; (split; [reflexivity|]); simpl;
    (split; [reflexivity|]); (split; [exact Hof | reflexivity]).
Qed.



Lemma vars_enter self : vars (__enter__ self) = vars self.
Proof. unfold __enter__. destruct (negb _); reflexivity. Qed.

Lemma exit_saves f self w d :
  _writeback self = true -> vars self = to_vars d -> write_fails f = false ->
  fst (__exit__ f None self w) = Ok tt
  /\ file (snd (__exit__ f None self w)) = Some (Text (json_of_data d)).
Proof.
  intros Hwb Hv Hw. unfold __exit__, save. rewrite Hwb, Hv.
  change (filter _ (to_vars d)) with (to_vars d).
  rewrite dump_to_vars, Hw. cbn [fst snd].
  split; [reflexivity|].
  match goal with
  | |- file (snd (close f self ?w')) = _ =>
      rewrite (proj1 (close_effects f self w'))
  end.
  reflexivity.
Qed.

Lemma exit_after_raise f e self w :
  fst (__exit__ f (Some e) self w) = Ok tt
  /\ file (snd (__exit__ f (Some e) self w)) = file w.
Proof.
  unfold __exit__. cbn [fst snd]. split; [reflexivity|].
  apply (proj1 (close_effects f self w)).
Qed.




Lemma set_startpage_session (local : Z) (f : faults) (dk : disk)
    (now : Datetime.datetime) (exclusions : list string) (bg : option string)
    (seed : list nat) (w : world) (d : WallpaperData) :
  data_ok d = true ->
  file w = Some (Text (json_of_data d)) ->
  open_fails f = false -> flock_fails f = false -> write_fails f = false ->
  let run := set_startpage_body dk now exclusions
               (mkSearch (reload local d) [] bg seed 0) in
  let out := set_startpage local f dk now exclusions bg seed w in
  fst out = fst run
  /\ snd (snd out) = background (snd run)
  /\ file (fst (snd out))
     = match fst run with
       | Ok _ => Some (Text (json_of_data (db (snd run))))
       | Raise _ => file w
       end.
Proof.
  intros Hok Hw Hf Hl Hwr run out. subst out.
  destruct (_open_json_of_data local f "w" w d Hok (or_intror eq_refl) Hf Hl Hw)
    as (self & w1 & Eo & Hv & Hof & Hfile).
  destruct (_open_ok _ _ _ _ _ _ Eo) as (Hmode & _).
  unfold set_startpage. rewrite Eo. rewrite vars_enter, Hof.
  fold run. destruct run as [[a|e] st]; cbn [fst snd].
  - match goal with
    | |- context [__exit__ f None ?s w1] =>
        destruct (exit_saves f s w1 (db st)) as [H1 H2];
          [unfold __enter__; rewrite Hmode; reflexivity | reflexivity
          | exact Hwr |];
        destruct (__exit__ f None s w1) as [[[]|e] w2]
    end; cbn [fst snd] in *; [auto | discriminate H1].
  - match goal with
    | |- context [__exit__ f (Some e) ?s w1] =>
        destruct (exit_after_raise f e s w1) as [H1 H2];
        destruct (__exit__ f (Some e) s w1) as [[[]|e'] w2]
    end; cbn [fst snd] in *; [|discriminate H1].
    repeat split. rewrite H2. exact Hfile.
Qed.

(** X13.  [set_startpage] from end to end: the selection runs on the catalogue
    as loaded; when it succeeds the file holds the catalogue it left, and
    when it raises the file holds what it held, so that neither a reset
    of the flags nor [should_update] set on the way is recorded. *)
Theorem set_startpage_end_to_end (local : Z) (f : faults) (dk : disk)
    (now : Datetime.datetime) (exclusions : list string) (bg : option string)
    (seed : list nat) (w : world) (d : WallpaperData) :
  data_ok d = true ->
  file w = Some (Text (json_of_data d)) ->
  open_fails f = false -> flock_fails f = false -> write_fails f = false ->
  let run := set_startpage_body dk now exclusions
               (mkSearch (reload local d) [] bg seed 0) in
  let out := set_startpage local f dk now exclusions bg seed w in
  fst out = fst run
  /\ snd (snd out) = background (snd run)
  /\ file (fst (snd out))
     = match fst run with
       | Ok _ => Some (Text (json_of_data (db (snd run))))
       | Raise _ => file w
       end.
Proof. exact (set_startpage_session local f dk now exclusions bg seed w d). Qed.

Lemma set_startpage_end_to_end_witness :
  file (fst (snd (set_startpage 3600 no_faults example_disk example_now ["wall"]
                    None [1; 0] example_world)))
  = match fst (set_startpage_body example_disk example_now ["wall"]
                 (mkSearch (reload 3600 example_data) [] None [1; 0] 0)) with
    | Ok _ => Some (Text (json_of_data
                            (db (snd (set_startpage_body example_disk
                                        example_now ["wall"]
                                        (mkSearch (reload 3600 example_data) []
                                                  None [1; 0] 0))))))
    | Raise _ => file example_world
    end.
Proof.
  apply (set_startpage_end_to_end 3600 no_faults example_disk example_now
           ["wall"] None [1; 0] example_world example_data); reflexivity.
Defined.

(** ** Load, save, load again *)








(** ** [refresh] once more *)

Lemma refresh_body_keys dk now d dir :
  base_directory d = Some dir ->
  NoDup (keys (wallpapers d)) ->
  (forall k, In k (keys (wallpapers (snd (refresh_body dk now d))))
             <-> In k (_list_wallpapers dk dir))
  /\ NoDup (keys (wallpapers (snd (refresh_body dk now d))))
  /\ base_directory (snd (refresh_body dk now d)) = Some dir.
Proof.
  intros Hb Hnd. unfold refresh_body. rewrite Hb. cbn [snd wallpapers base_directory].
  match goal with
  | |- context [fold_left _ ?l ?ws1] =>
      destruct (del_all l ws1 (NoDup_keys_update _ _ Hnd)) as (Hn & Hk & _)
  end.
  split; [|split; [exact Hn | reflexivity]].
  intros k. rewrite Hk, keys_update, keys_fromkeys, !In_difference, !In_to_set.
  destruct (in_dec string_dec k (_list_wallpapers dk dir)),
           (in_dec string_dec k (keys (wallpapers d))); tauto.
Qed.

Lemma all_absent_nil (l : list string) : (forall k, ~ In k l) -> l = [].
Proof.
  destruct l as [|k l]; [reflexivity|]. intros H. exfalso.
  apply (H k). left. reflexivity.
Qed.

(** X15.  [refresh] a second time, on the same directory, inserts nothing and
    deletes nothing: it returns (0, 0), keeps every entry, and only moves
    [updated_at]. *)
Theorem refresh_twice (dk : disk) (now now' : Datetime.datetime)
    (d : WallpaperData) (dir : string) :
  base_directory d = Some dir ->
  NoDup (keys (wallpapers d)) ->
  let d1 := snd (refresh_body dk now d) in
  refresh_body dk now' d1
  = (Ok (0, 0),
     mkData (Some dir) (wallpapers d1) (Some now') (created_at d1)
            (should_update d1) (startpage d1)).
Proof.
  intros Hb Hnd d1.
  destruct (refresh_body_keys dk now d dir Hb Hnd) as (Hk & Hn & Hb1).
  fold d1 in Hk, Hn, Hb1.
  unfold refresh_body at 1. rewrite Hb1.
  assert (En : difference (to_set (_list_wallpapers dk dir))
                          (to_set (keys (wallpapers d1))) = []).
  { apply all_absent_nil. intros k. rewrite In_difference, !In_to_set, Hk. tauto. }
  assert (Ed : difference (to_set (keys (wallpapers d1)))
                          (to_set (_list_wallpapers dk dir)) = []).
  { apply all_absent_nil. intros k. rewrite In_difference, !In_to_set, Hk. tauto. }
  rewrite En, Ed. reflexivity.
Qed.

Lemma refresh_twice_witness :
  refresh_body example_disk example_now
    (snd (refresh_body example_disk example_now example_data))
  = (Ok (0, 0),
     mkData (Some example_dir)
            (wallpapers (snd (refresh_body example_disk example_now example_data)))
            (Some example_now)
            (created_at (snd (refresh_body example_disk example_now example_data)))
            (should_update (snd (refresh_body example_disk example_now example_data)))
            (startpage (snd (refresh_body example_disk example_now example_data)))).
Proof.
  apply (refresh_twice example_disk example_now example_now example_data
           example_dir); [reflexivity|].
  repeat (constructor; [simpl; intuition discriminate|]). constructor.
Defined.

(** ** [create] *)

Lemma NoDup_nodupb l : NoDup l -> nodupb l = true.
Proof.
  induction 1 as [|x l Hx _ IH]; [reflexivity|]. simpl.
  rewrite IH, andb_true_r. apply negb_true_iff, inb_false, Hx.
Qed.

Lemma NoDup_keys_fromkeys {V} (ks : list string) (v : V) :
  NoDup (keys (fromkeys ks v)).
Proof.
  unfold fromkeys, of_pairs. apply NoDup_keys_update. constructor.
Qed.

(** X16.  [create] fails before it touches anything: when the base directory
    is not a directory, with [DatabaseDirectoryNotFoundError]; when the
    database file exists and [force] is not set, with
    [DatabaseExistsError].  In both cases the file and the log are as
    they were. *)
Theorem create_fails_cleanly (local : Z) (f : faults) (dk : disk)
    (now : Datetime.datetime) (base : string) (force : bool) (w : world) :
  (is_dir dk base = false ->
     create local f dk now base force w
     = (Raise DatabaseDirectoryNotFoundError, w))
  /\ (is_dir dk base = true -> force = false -> open_fails f = false ->
      file w <> None ->
      create local f dk now base force w = (Raise DatabaseExistsError, w)).
Proof.
  split.
  - intros H. unfold create. rewrite H. reflexivity.
  - intros H -> Hf Hw. unfold create. rewrite H. cbn [negb].
    unfold with_open, _open, path_open. simpl. rewrite Hf.
    destruct (file w); [reflexivity | contradiction].
Qed.

Lemma create_fails_cleanly_witness :
  create 0 no_faults example_disk example_now example_dir false example_world
  = (Raise DatabaseExistsError, example_world).
Proof.
  apply (proj2 (create_fails_cleanly 0 no_faults example_disk example_now
                  example_dir false example_world));
    try reflexivity.
  discriminate.
Defined.

Lemma of_vars_created base pws ws t :
  as_wallpapers pws = Some ws ->
  exists vs,
    init_data (VDict [("base_directory", VPath base); ("wallpapers", VDict pws);
                      ("created_at", VDatetime t)]) = Ok vs
    /\ of_vars vs
       = Some (mkData (Some base) ws None (Some t) false (mkTarget None None)).
Proof.
  intros H. eexists. split; [reflexivity|]. cbn. rewrite H. reflexivity.
Qed.

(** X17.  A database that [create] has written opens, in either mode that
    reads, as the catalogue of the listed files: every entry is the
    default one, [updated_at] and [startpage] are unset, [should_update]
    is false, and [created_at] is the time of creation, now aware.  The
    number [create] reports is the number of entries. *)
Theorem create_then_open (local : Z) (f : faults) (dk : disk)
    (now : Datetime.datetime) (base : string) (force : bool) (w : world) :
  is_dir dk base = true ->
  force = true \/ file w = None ->
  open_fails f = false -> flock_fails f = false -> write_fails f = false ->
  Datetime.valid now = true ->
  ~ In _TYPE_KEY (_list_wallpapers dk base) ->
  exists info w1,
    create local f dk now base force w = (Ok info, w1)
    /\ info_total_wallpapers info
       = List.length (wallpapers (created_data local dk now base))
    /\ forall local' f' mode,
         mode = "r" \/ mode = "w" ->
         open_fails f' = false -> flock_fails f' = false ->
         exists self w2,
           _open local' f' mode w1 = (Ok self, w2)
           /\ of_vars (vars self) = Some (created_data local' dk now base).
Proof.
  intros Hd Hforce Hf Hl Hwr Hv Hty.
  set (ws := fromkeys (_list_wallpapers dk base) Wallpaper_default).
  set (vs := [("base_directory", VPath base);
              ("wallpapers",
               VDict (map (fun kv => (fst kv, py_wallpaper (snd kv))) ws));
              ("created_at", VDatetime now)]).
  assert (Hsup : supported (VDict vs) = true).
  { unfold vs. cbn [supported forallb keys map fst snd].
    change (nodupb _) with true at 1. cbn [andb].
    change (negb (inb _TYPE_KEY _)) with true at 1. cbn [andb].
    fold (keys (map (fun kv : string * Wallpaper =>
                       (fst kv, py_wallpaper (snd kv))) ws)).
    rewrite keys_py_wallpapers, supported_wallpapers, Hv.
    assert (En : nodupb (keys ws) = true)
      by (apply NoDup_nodupb, NoDup_keys_fromkeys).
    assert (E : inb _TYPE_KEY (keys ws) = false).
    { apply inb_false. unfold ws. rewrite keys_fromkeys. exact Hty. }
    rewrite En, E. reflexivity. }
  assert (Hload : forall local', exists doc,
             dump (VDict vs) = Ok doc
             /\ load (decode local') doc = Ok (normalize local' (VDict vs))).
  { intros local'. apply dump_load, Hsup. }
  destruct (Hload local) as (doc & Hdump & _).
  assert (Hc : exists w1,
             create local f dk now base force w
             = (Ok (mkInfo base (List.length ws) now None false), w1)
             /\ file w1 = Some (Text doc)).
  { unfold create. rewrite Hd. cbn [negb].
    unfold with_open, _open, path_open, FileLock.acquire.
    assert (Hex : forall self w0,
               _writeback self = true -> vars self = vs ->
               exists w1, __exit__ f None self w0 = (Ok tt, w1)
                          /\ file w1 = Some (Text doc)).
    { intros self w0 Hwb Hvs. unfold __exit__, save. rewrite Hwb, Hvs.
      change (filter _ vs) with vs. rewrite Hdump, Hwr.
      eexists. split; [reflexivity|].
      match goal with
      | |- file (snd (close f self ?w')) = _ =>
          rewrite (proj1 (close_effects f self w'))
      end. reflexivity. }
    destruct Hforce as [-> | Hnone].
    - simpl. rewrite Hf. simpl. rewrite Hl. simpl.
      match goal with
      | |- context [__exit__ f None ?s ?w0] =>
          destruct (Hex s w0 eq_refl eq_refl) as (w1 & -> & Hw1)
      end.
      exists w1. split; [reflexivity | exact Hw1].
    - destruct force; simpl; rewrite Hf, ?Hnone; simpl; rewrite Hl; simpl;
        match goal with
        | |- context [__exit__ f None ?s ?w0] =>
            destruct (Hex s w0 eq_refl eq_refl) as (w1 & -> & Hw1)
        end;
        exists w1; (split; [reflexivity | exact Hw1]). }
  destruct Hc as (w1 & Hc & Hw1).
  eexists _, w1. split; [exact Hc|]. split.
  - cbn [info_total_wallpapers created_data wallpapers]. reflexivity.
  - intros local' f' mode Hm Hf' Hl'.
    destruct (Hload local') as (doc' & Hdump' & Hl2).
    rewrite Hdump in Hdump'. injection Hdump' as <-.
    assert (Hn : normalize local' (VDict vs)
                 = VDict [("base_directory", VPath base);
                          ("wallpapers",
                           VDict (map (fun kv => (fst kv, py_wallpaper (snd kv))) ws));
                          ("created_at",
                           VDatetime (Datetime.astimezone local' now))]).
    { unfold vs. cbn [normalize map fst snd]. do 4 f_equal.
      f_equal. rewrite map_map. apply map_ext. intros [k x]. reflexivity. }
    rewrite Hn in Hl2.
    destruct (of_vars_created base _ ws (Datetime.astimezone local' now)
                (as_wallpapers_py ws)) as (vs' & Hinit & Hof).
    remember (map (fun kv : string * Wallpaper =>
                     (fst kv, py_wallpaper (snd kv))) ws) as pws.
    unfold _open, path_open, FileLock.acquire, json_load.
    destruct Hm as [-> | ->]; simpl; rewrite Hf', Hw1; simpl; rewrite Hl'; simpl;
      rewrite Hl2; cbn [except]; rewrite Hinit;
      eexists _, _; (split; [reflexivity|]); exact Hof.
Qed.

Lemma create_then_open_witness :
  exists info w1,
    create 3600 no_faults example_disk example_now example_dir true example_world
    = (Ok info, w1)
    /\ info_total_wallpapers info
       = List.length (wallpapers (created_data 3600 example_disk example_now
                                               example_dir))
    /\ forall local' f' mode,
         mode = "r" \/ mode = "w" ->
         open_fails f' = false -> flock_fails f' = false ->
         exists self w2,
           _open local' f' mode w1 = (Ok self, w2)
           /\ of_vars (vars self)
              = Some (created_data local' example_disk example_now example_dir).
Proof.
  apply (create_then_open 3600 no_faults example_disk example_now example_dir
           true example_world); try reflexivity.
  - left. reflexivity.
  - vm_compute. intuition discriminate.
Defined.

(** ** The lock *)

(** X18.  Releasing is idempotent: once [release] has gone through, the lock
    object is unlocked and a further [release] changes neither the object
    nor the lock nor the log. *)
Theorem release_idempotent (f : faults) (l l' : FileLock.t) (w w' : world) :
  FileLock.release f l w = (Ok l', w') ->
  FileLock.locked l' = false
  /\ FileLock.release f l' w' = (Ok l', w').
Proof.
  unfold FileLock.release, FileLock.locked.
  destruct (FileLock._locked l) eqn:El.
  - destruct (unlock_fails f); [discriminate|].
    intros [= <- <-]. cbn. auto.
  - intros [= <- <-]. rewrite El. auto.
Qed.

Lemma release_idempotent_witness :
  FileLock.locked (FileLock.mk 2 false) = false
  /\ FileLock.release no_faults (FileLock.mk 2 false)
       (emit EvUnlock (mkWorld None None true []))
     = (Ok (FileLock.mk 2 false), emit EvUnlock (mkWorld None None true [])).
Proof.
  apply (release_idempotent no_faults (FileLock.mk 2 true)
           (FileLock.mk 2 false) (mkWorld None (Some Exclusive) true [])).
  reflexivity.
Defined.

(** X19.  A lock that could not be taken is not marked as held, and a lock
    that could not be released stays marked as held, so that the release
    can be tried again. *)
Theorem lock_state_follows_flock (f : faults) (l : FileLock.t) (w : world) :
  (flock_fails f = true ->
     FileLock.acquire f l w = (Raise OSError, w))
  /\ (flock_fails f = false ->
      exists w', FileLock.acquire f l w
                 = (Ok (FileLock.mk (FileLock._operation l) true), w')
                 /\ held w' = Some (FileLock.kind_of (FileLock._operation l)))
  /\ (FileLock.locked l = true -> unlock_fails f = true ->
      FileLock.release f l w = (Raise OSError, w)).
Proof.
  unfold FileLock.acquire, FileLock.release, FileLock.locked.
  split; [|split].
  - intros ->. reflexivity.
  - intros ->. eexists. split; reflexivity.
  - intros -> ->. reflexivity.
Qed.

Lemma lock_state_follows_flock_witness :
  FileLock.release (mkFaults false false false true) (FileLock.mk 1 true) no_file
  = (Raise OSError, no_file).
Proof.
  apply (proj2 (proj2 (lock_state_follows_flock
                         (mkFaults false false false true)
                         (FileLock.mk 1 true) no_file))); reflexivity.
Defined.

(** X20.  Used as a context manager, the lock is taken before the body runs
    and released after it, whether the body ends well or not: the result
    of the body is the result of the statement, the lock object ends
    unlocked, no lock is held, and the unlock is the last event. *)
Theorem lock_scope_releases {A : Type} (f : faults) (shared blocking : bool)
    (body : world -> result A * world) (w : world) :
  flock_fails f = false -> unlock_fails f = false ->
  let l := FileLock.__init__ shared blocking in
  let w1 := snd (FileLock.acquire f l w) in
  exists l' w',
    LockScope.with_lock f l body w = (fst (body w1), l', w')
    /\ log w1 = log w ++ [EvFlock (FileLock._operation l)]
    /\ FileLock.locked l' = false
    /\ held w' = None
    /\ log w' = log (snd (body w1)) ++ [EvUnlock].
Proof.
  intros Hf Hu l w1. subst w1.
  unfold LockScope.with_lock, LockScope.__enter__, LockScope.__exit__,
    FileLock.acquire, FileLock.release.
  rewrite Hf. cbn [fst snd FileLock._locked FileLock._operation].
  destruct (body _) as [r w2]. rewrite Hu. cbn [fst snd].
  eexists _, _. split; [reflexivity|]. repeat split.
Qed.

Lemma lock_scope_releases_witness :
  exists l' w',
    LockScope.with_lock no_faults (FileLock.__init__ false true) logging_body
      stored_empty
    = (fst (logging_body
              (snd (FileLock.acquire no_faults (FileLock.__init__ false true)
                      stored_empty))), l', w')
    /\ log (snd (FileLock.acquire no_faults (FileLock.__init__ false true)
                   stored_empty))
       = log stored_empty ++ [EvFlock (FileLock._operation
                                         (FileLock.__init__ false true))]
    /\ FileLock.locked l' = false
    /\ held w' = None
    /\ log w'
       = log (snd (logging_body
                     (snd (FileLock.acquire no_faults
                             (FileLock.__init__ false true) stored_empty))))
           ++ [EvUnlock].
Proof.
  apply (lock_scope_releases no_faults false true logging_body stored_empty);
    reflexivity.
Defined.

(** X21.  The operation word of a lock asks for exactly one kind of lock, the
    shared one or the exclusive one, never for an unlock; the
    non-blocking bit is set exactly for a non-blocking lock and does not
    change the kind that is granted. *)
Theorem lock_operation_word (shared blocking : bool) :
  let op := FileLock._operation (FileLock.__init__ shared blocking) in
  Z.testbit op 0 = shared
  /\ Z.testbit op 1 = negb shared
  /\ Z.testbit op 2 = negb blocking
  /\ Z.land op FileLock.LOCK_UN = 0%Z
  /\ FileLock.kind_of op = (if shared then Shared else Exclusive)
  /\ FileLock.kind_of op
     = FileLock.kind_of (FileLock._operation (FileLock.__init__ shared true)).
Proof. destruct shared, blocking; repeat split. Qed.

(** ** The summaries *)

(** X22.  After [refresh], the total that [database_info] reports is the number
    of distinct files the walk has listed. *)
Theorem refresh_total (dk : disk) (now : Datetime.datetime)
    (d : WallpaperData) (dir : string) :
  base_directory d = Some dir ->
  NoDup (keys (wallpapers d)) ->
  Views.total_wallpapers (Views.database_info (snd (refresh_body dk now d)))
  = List.length (to_set (_list_wallpapers dk dir)).
Proof.
  intros Hb Hnd.
  destruct (refresh_body_keys dk now d dir Hb Hnd) as (Hk & Hn & _).
  cbn [Views.database_info Views.total_wallpapers].
  rewrite <- (length_map fst). fold (keys (wallpapers (snd (refresh_body dk now d)))).
  apply Permutation_length, NoDup_Permutation;
    [exact Hn | apply NoDup_to_set |].
  intros k. rewrite Hk, In_to_set. tauto.
Qed.

Lemma refresh_total_witness :
  Views.total_wallpapers
    (Views.database_info (snd (refresh_body example_disk example_now example_data)))
  = List.length (to_set (_list_wallpapers example_disk example_dir)).
Proof.
  apply (refresh_total example_disk example_now example_data example_dir);
    [reflexivity|].
  repeat (constructor; [simpl; intuition discriminate|]). constructor.
Defined.







(** ** The configuration file *)

Lemma section_exclude_elements config section v :
  Config.section_exclude config section = Ok v ->
  listed config section = elements v.
Proof.
  unfold Config.section_exclude, listed. cbn [Config.getitem bind].
  destruct (get section config) as [[s|z|b|l|t]|]; cbn [bind Config.getitem];
    try discriminate.
  - destruct (get "exclude" t) as [x|].
    + intros [= <-]. destruct x; reflexivity.
    + intros [= <-]. reflexivity.
  - intros [= <-]. reflexivity.
Qed.

Lemma section_exclude_ok config section :
  section_ok config section = true ->
  Config.section_exclude config section
  = Ok (Config.TArray (listed config section)).
Proof.
  unfold section_ok, Config.section_exclude, listed.
  cbn [Config.getitem bind].
  destruct (get section config) as [[s|z|b|l|t]|]; cbn [bind Config.getitem];
    try discriminate; [|reflexivity].
  destruct (get "exclude" t) as [[s|z|b|l|t']|]; try discriminate; reflexivity.
Qed.

Lemma text_at_getitem config section key s :
  text_at config section key = Some s ->
  (t <- Config.getitem (Config.TTable config) section ;;
   v <- Config.getitem t key ;; Config.Path v) = Ok s.
Proof.
  unfold text_at. cbn [Config.getitem bind].
  destruct (get section config) as [[| | | |t]|]; try discriminate.
  cbn [bind Config.getitem].
  destruct (get key t) as [[| | | |]|]; try discriminate.
  intros [= <-]. reflexivity.
Qed.

Lemma getitem_text_at config section key s :
  (t <- Config.getitem (Config.TTable config) section ;;
   v <- Config.getitem t key ;; Config.Path v) = Ok s ->
  text_at config section key = Some s.
Proof.
  unfold text_at. cbn [Config.getitem bind].
  destruct (get section config) as [[| | | |t]|]; try discriminate.
  cbn [bind Config.getitem].
  destruct (get key t) as [[| | | |]|]; try discriminate.
  intros [= <-]. reflexivity.
Qed.

(** What [read_parsed] has gone through when it returns. *)
Lemma read_parsed_returns home config c :
  Config.read_parsed home config = Ok c ->
  exists g s m s' m',
    Config.section_exclude config Config.GENERAL = Ok g
    /\ Config.section_exclude config Config.STARTPAGE = Ok s
    /\ Config.section_exclude config Config.MOBILE = Ok m
    /\ Config.iadd s g = Ok s' /\ Config.iadd m g = Ok m'
    /\ text_at config Config.GENERAL "wallpaper_directory"
       = Some (Config.wallpaper_directory c)
    /\ text_at config Config.STARTPAGE "background"
       = Some (Config.startpage_background c)
    /\ Config.database_path c = Config.default_database home
    /\ Config.exclude c
       = [(Config.GENERAL, g); (Config.STARTPAGE, s'); (Config.MOBILE, m')].
Proof.
  unfold Config.read_parsed.
  destruct (Config.section_exclude config Config.GENERAL) as [g|] eqn:Eg;
    [|discriminate].
  destruct (Config.section_exclude config Config.STARTPAGE) as [s|] eqn:Es;
    [|discriminate].
  destruct (Config.section_exclude config Config.MOBILE) as [m|] eqn:Em;
    [|discriminate].
  cbn [bind].
  destruct (Config.iadd s g) as [s'|] eqn:Is; [|discriminate].
  destruct (Config.iadd m g) as [m'|] eqn:Im; [|discriminate].
  cbn [bind].
  destruct (t <- Config.getitem (Config.TTable config) Config.GENERAL ;;
            v <- Config.getitem t "wallpaper_directory" ;; Config.Path v)
    as [wd|] eqn:Ew; [|discriminate].
  destruct (t <- Config.getitem (Config.TTable config) Config.STARTPAGE ;;
            v <- Config.getitem t "background" ;; Config.Path v)
    as [bg|] eqn:Eb; [|discriminate].
  cbn [bind]. intros [= <-].
  exists g, s, m, s', m'. cbn [Config.wallpaper_directory
    Config.startpage_background Config.database_path Config.exclude].
  repeat split; try reflexivity; try assumption.
  - apply getitem_text_at, Ew.
  - apply getitem_text_at, Eb.
Qed.

(** X24.  With sections that are tables and excludes that are arrays,
    [read] returns the two paths of the file and, for the startpage and
    for mobile, the section's own excludes followed by the general ones;
    a section or an [exclude] that is missing counts as an empty list. *)
Theorem read_merges_excludes (home : string) (files : string -> Config.source)
    (config : dict Config.toml) (wd bg : string) :
  files (Config.default_config home) = Config.Parsed config ->
  sections_ok config = true ->
  text_at config Config.GENERAL "wallpaper_directory" = Some wd ->
  text_at config Config.STARTPAGE "background" = Some bg ->
  Config.read home files
  = Config.Returned
      (Config.mkConfig (Config.default_database home) wd bg
         [(Config.GENERAL, Config.TArray (listed config Config.GENERAL));
          (Config.STARTPAGE,
           Config.TArray (listed config Config.STARTPAGE
                          ++ listed config Config.GENERAL));
          (Config.MOBILE,
           Config.TArray (listed config Config.MOBILE
                          ++ listed config Config.GENERAL))]).
Proof.
  intros Hf Hok Hwd Hbg. unfold Config.read. rewrite Hf.
  unfold sections_ok in Hok.
  apply andb_true_iff in Hok. destruct Hok as [Hok Hm].
  apply andb_true_iff in Hok. destruct Hok as [Hg Hs].
  unfold Config.read_parsed.
  rewrite (section_exclude_ok _ _ Hg), (section_exclude_ok _ _ Hs),
    (section_exclude_ok _ _ Hm).
  cbn [bind Config.iadd Config.iterate].
  rewrite (text_at_getitem _ _ _ _ Hwd), (text_at_getitem _ _ _ _ Hbg).
  reflexivity.
Qed.

Lemma read_merges_excludes_witness :
  Config.read example_home example_files
  = Config.Returned
      (Config.mkConfig (Config.default_database example_home)
         "/home/u/walls" "/home/u/.bg"
         [(Config.GENERAL, Config.TArray (listed example_config Config.GENERAL));
          (Config.STARTPAGE,
           Config.TArray (listed example_config Config.STARTPAGE
                          ++ listed example_config Config.GENERAL));
          (Config.MOBILE,
           Config.TArray (listed example_config Config.MOBILE
                          ++ listed example_config Config.GENERAL))]).
Proof.
  apply (read_merges_excludes example_home example_files example_config
           "/home/u/walls" "/home/u/.bg"); reflexivity.
Defined.


Lemma example_read_run : Config.read example_home example_files
                         = Config.Returned example_read.
Proof. vm_compute. reflexivity. Qed.


Lemma strings_In ex : forall l ss,
  strings l = Some ss -> In (Config.TStr ex) l -> In ex ss.
Proof.
  induction l as [|x l IH]; intros ss; [intros _ []|].
  cbn [strings]. destruct x as [s| | | |]; try discriminate.
  destruct (strings l) as [ss'|]; [|discriminate].
  intros [= <-] [H|H].
  - injection H as ->. left. reflexivity.
  - right. apply IH; [reflexivity | exact H].
Qed.

(** X26.  The excludes of the configuration reach the selection: with the
    list that [set_startpage_wallpaper] takes from what [read] returned,
    the wallpaper a successful selection installs has in its key neither
    a general exclude nor one of the startpage's own. *)
Theorem configured_exclusions_respected (home : string)
    (files : string -> Config.source) (config : dict Config.toml)
    (c : Config.Config) (exclusions : list string) (dk : disk)
    (now : Datetime.datetime) (dir : string) (st : search) (v : pyval)
    (st' : search) :
  files (Config.default_config home) = Config.Parsed config ->
  Config.read home files = Config.Returned c ->
  startpage_exclusions c = Some exclusions ->
  base_directory (db st) = Some dir ->
  set_startpage_body dk now exclusions st = (Ok v, st') ->
  exists k,
    In k (keys (wallpapers (db st)))
    /\ background st' = Some (joinpath dir k)
    /\ forall ex,
         In (Config.TStr ex) (listed config Config.GENERAL)
         \/ In (Config.TStr ex) (listed config Config.STARTPAGE) ->
         ~ substring ex k.
Proof.
  intros Hf Hr Hx Hb He.
  destruct (set_startpage_body_excluded dk now dir exclusions st v st' Hb He)
    as (k & Hk & Hbg & _ & Hex).
  exists k. split; [exact Hk|]. split; [exact Hbg|].
  intros ex Hin. apply Hex.
  unfold Config.read in Hr. rewrite Hf in Hr.
  destruct (Config.read_parsed home config) as [c'|] eqn:Ep; [|discriminate].
  injection Hr as ->.
  destruct (read_parsed_returns _ _ _ Ep)
    as (g & s & m & s' & m' & Eg & Es & _ & Is & _ & _ & _ & _ & Hexc).
  unfold startpage_exclusions in Hx. rewrite Hexc in Hx.
  cbn [get] in Hx.
  change (String.eqb Config.STARTPAGE Config.GENERAL) with false in Hx.
  change (String.eqb Config.STARTPAGE Config.STARTPAGE) with true in Hx.
  cbv iota in Hx.
  destruct s' as [| | |l'|]; try discriminate.
  rewrite (section_exclude_elements _ _ _ Eg), (section_exclude_elements _ _ _ Es)
    in Hin.
  apply (strings_In ex l' exclusions Hx).
  destruct s as [| | |ls|]; cbn [Config.iadd Config.as_int] in Is;
    try discriminate;
    try (destruct g; discriminate);
    try (destruct (Config.as_int g); discriminate).
  destruct (Config.iterate g) as [r|] eqn:Ei; [|discriminate].
  cbn [bind] in Is. injection Is as <-.
  apply in_or_app. destruct Hin as [Hin|Hin].
  - right. destruct g; cbn [elements] in Hin; try contradiction.
    cbn [Config.iterate] in Ei. injection Ei as <-. exact Hin.
  - left. exact Hin.
Qed.

Lemma configured_exclusions_respected_witness :
  exists k,
    In k (keys (wallpapers (db example_search)))
    /\ background (snd (set_startpage_body example_disk example_now ["1"]
                          example_search))
       = Some (joinpath example_dir k)
    /\ forall ex,
         In (Config.TStr ex) (listed example_config Config.GENERAL)
         \/ In (Config.TStr ex) (listed example_config Config.STARTPAGE) ->
         ~ substring ex k.
Proof.
  apply (configured_exclusions_respected example_home example_files
           example_config example_read ["1"] example_disk example_now
           example_dir example_search VNone);
    [reflexivity | exact example_read_run | reflexivity | reflexivity
    | reflexivity].
Defined.

(** ** The command line *)






Lemma dump_created base (ws : dict Wallpaper) now :
  exists doc,
    dump (VDict [("base_directory", VPath base);
                 ("wallpapers",
                  VDict (map (fun kv => (fst kv, py_wallpaper (snd kv))) ws));
                 ("created_at", VDatetime now)]) = Ok doc.
Proof.
  cbn [dump mapM bind fst snd]. rewrite dump_wallpapers. cbn [bind].
  eexists. reflexivity.
Qed.

(** [create] raises [DatabaseExistsError] only without [force], over a
    file that is there, and before anything is done to it. *)
Lemma create_exists_inv local f dk now base force w w' :
  create local f dk now base force w = (Raise DatabaseExistsError, w') ->
  force = false /\ (exists c0, file w = Some c0) /\ w' = w.
Proof.
  unfold create. destruct (is_dir dk base); cbn [negb]; [|discriminate].
  destruct (dump_created base
              (fromkeys (_list_wallpapers dk base) Wallpaper_default) now)
    as (doc & Hd).
  unfold with_open, _open, path_open, FileLock.acquire.
  destruct force; simpl;
    destruct (open_fails f); simpl; try discriminate;
    destruct (file w) as [c0|] eqn:Ew; simpl;
    try (intros [= <-]; split; [reflexivity|]; split;
         [exists c0; reflexivity | reflexivity]);
    destruct (flock_fails f); simpl; try discriminate;
    unfold __exit__, save; cbn -[dump]; rewrite Hd;
    destruct (write_fails f); cbn -[close]; discriminate.
Qed.

Lemma prompts_print s c : prompts (Cli.print s c) = prompts c.
Proof.
  unfold prompts, Cli.print. cbn [Cli.stdout].
  rewrite filter_app, length_app. cbn. lia.
Qed.

Lemma prompts_print_aligned kv c r c' :
  Cli.print_aligned kv c = (r, c') ->
  prompts c' = prompts c /\ Cli.stdin c' = Cli.stdin c.
Proof.
  unfold Cli.print_aligned. destruct (Cli.aligned_lines kv).
  - intros [= <- <-]. rewrite prompts_print. split; reflexivity.
  - intros [= <- <-]. split; reflexivity.
Qed.

Lemma input_effects p c r c' :
  Cli.input p c = (r, c') ->
  prompts c' = prompts c + 1
  /\ List.length (Cli.stdin c) <= List.length (Cli.stdin c') + 1.
Proof.
  unfold Cli.input, prompts.
  destruct (Cli.stdin c) as [|l rest]; intros [= <- <-]; cbn [Cli.stdout Cli.stdin];
    rewrite filter_app, length_app; cbn; lia.
Qed.

(** X28.  [create_database] asks at most once, and only when it was called
    without [force] over a database file that exists; if it does not ask,
    it reads nothing from the input; if it asks, it reads at most one
    line. *)
Theorem create_database_asks_once (local : Z) (dk : disk)
    (strftime : Datetime.datetime -> string) (database_path base : string)
    (first second : faults * Datetime.datetime) (force : bool) (w : world)
    (c : Cli.console) :
  let c' := snd (snd (Cli.create_database local dk strftime database_path base
                        first second force w c)) in
  (prompts c' = prompts c /\ Cli.stdin c' = Cli.stdin c)
  \/ (prompts c' = prompts c + 1
      /\ force = false
      /\ (exists c0, file w = Some c0)
      /\ List.length (Cli.stdin c) <= List.length (Cli.stdin c') + 1).
Proof.
  intros c'. subst c'. unfold Cli.create_database.
  destruct first as [f1 now1], second as [f2 now2].
  cbn [Cli.attempts].
  destruct (create local f1 dk now1 base force w) as [[info|e] w1] eqn:E1.
  - left.
    destruct (Cli.print_aligned _ _) as [r c2] eqn:Ea.
    apply prompts_print_aligned in Ea. rewrite prompts_print in Ea.
    destruct r; exact Ea.
  - destruct e; try (left; split; reflexivity).
    apply create_exists_inv in E1. destruct E1 as (-> & Hex & ->).
    right.
    destruct (Cli.input Cli.overwrite_prompt c) as [[response|] c1] eqn:Ei;
      apply input_effects in Ei; destruct Ei as [Hn Hl].
    + destruct (Cli.agrees response).
      * destruct (create local f2 dk now2 base true w) as [[info|e] w2] eqn:E2.
        -- destruct (Cli.print_aligned _ _) as [r c2] eqn:Ea.
           apply prompts_print_aligned in Ea. rewrite prompts_print in Ea.
           destruct Ea as [Ea1 Ea2].
           destruct r; cbn [snd]; rewrite Ea1, Ea2; auto.
        -- destruct e; cbn [snd]; auto.
           apply create_exists_inv in E2. destruct E2 as (E2 & _).
           discriminate E2.
      * cbn [snd]. rewrite prompts_print. cbn [Cli.print Cli.stdin]. auto.
    + cbn [snd]. auto.
Qed.

Lemma create_exists local f dk now base w c0 :
  is_dir dk base = true -> open_fails f = false -> file w = Some c0 ->
  create local f dk now base false w = (Raise DatabaseExistsError, w).
Proof.
  intros Hd Hf Hw. unfold create. rewrite Hd. cbn [negb].
  unfold with_open, _open, path_open. simpl. rewrite Hf, Hw. reflexivity.
Qed.

(** X29.  Over a database file that exists, [create_database] without
    [force] leaves the decision to the answer.  Anything but [y] or
    [yes], in either case of letters, cancels: the call is done and the
    file, its lock and the log are as before.  With [y] or [yes] what
    happens to the file is exactly what a forced [create] does to it,
    and the call is done precisely when that [create] returns. *)
Theorem create_database_answer (local : Z) (dk : disk)
    (strftime : Datetime.datetime -> string) (database_path base : string)
    (f1 f2 : faults) (now1 now2 : Datetime.datetime) (w : world)
    (c : Cli.console) (c0 : content) (response : string)
    (rest : list string) :
  is_dir dk base = true -> open_fails f1 = false ->
  file w = Some c0 ->
  Cli.stdin c = response :: rest ->
  let out := Cli.create_database local dk strftime database_path base
               (f1, now1) (f2, now2) false w c in
  if Cli.agrees response
  then fst (snd out) = snd (create local f2 dk now2 base true w)
       /\ (fst out = Cli.Done
           <-> is_ok (fst (create local f2 dk now2 base true w)) = true)
  else out = (Cli.Done,
              (w, Cli.mkConsole rest
                    (Cli.stdout c
                     ++ [Cli.Asked Cli.overwrite_prompt;
                         Cli.Printed ("Cancelling database creation"
                                      ++ Cli.newline)%string]))).
Proof.
  intros Hd Hf Hw Hin out. subst out. unfold Cli.create_database.
  cbn [Cli.attempts]. rewrite (create_exists local f1 dk now1 base w c0 Hd Hf Hw).
  unfold Cli.input. rewrite Hin.
  destruct (Cli.agrees response).
  - destruct (create local f2 dk now2 base true w) as [[info|e] w2] eqn:E2.
    + unfold Cli.print_aligned, Cli.aligned_lines, Cli.created_report.
      cbn [keys map fst fst snd is_ok]. split; [reflexivity|].
      split; reflexivity.
    + assert (He : e <> DatabaseExistsError).
      { intros ->. apply create_exists_inv in E2. destruct E2 as (E2 & _).
        discriminate E2. }
      destruct e; try contradiction (He eq_refl);
        cbn [fst snd is_ok]; (split; [reflexivity|]);
        split; discriminate.
  - unfold Cli.print. cbn [Cli.stdin Cli.stdout].
    rewrite <- app_assoc. reflexivity.
Qed.

Lemma create_database_answer_witness :
  Cli.create_database 0 example_disk example_strftime
    "/home/u/.local/share/wall-select.json" example_dir
    (no_faults, example_now) (no_faults, example_now) false existing_world
    (answering "No")
  = (Cli.Done,
     (existing_world,
      Cli.mkConsole []
        [Cli.Asked Cli.overwrite_prompt;
         Cli.Printed ("Cancelling database creation" ++ Cli.newline)%string])).
Proof.
  exact (create_database_answer 0 example_disk example_strftime
           "/home/u/.local/share/wall-select.json" example_dir
           no_faults no_faults example_now example_now existing_world
           (answering "No") Malformed "No" []
           eq_refl eq_refl eq_refl eq_refl).
Defined.
